(** * The community-platform backend (server.js) as a state-passing model

    The Express handlers of [server.js] are embedded as functions from a
    request and a world (the four MongoDB collections plus the log of
    Socket.IO broadcasts) to a response and a new world.  The libraries the
    handlers call (jsonwebtoken, bcrypt, the ObjectId and Date casts of
    Mongoose) are not part of the repository; they are the fields of the
    class [Libs]. *)

From Stdlib Require Import ZArith Ascii.
From stdpp Require Import gmap strings list fin_maps sorting.

Open Scope string_scope.
Open Scope list_scope.

(** ** Values shared by the schemas *)

(** An ObjectId is kept as the 24-digit text that [toString()] returns. *)
Abbreviation ObjectId := string (only parsing).

(** A Date is kept as milliseconds since the epoch. *)
Abbreviation Date := Z (only parsing).

(** [const SECRET_KEY = "your_secret_key"] *)
Definition SECRET_KEY : string := "your_secret_key".

(** The exceptions the library calls of the handlers throw. *)
Inductive Error :=
| JsonWebTokenError
| BcryptError
| CastError (value : string)
| ValidationError
| DuplicateKeyError.

(** The libraries behind the handlers.
    - [jwt_sign now key userId] is
      [jwt.sign({ userId }, key, { expiresIn: "1h" })] issued at time [now];
    - [jwt_verify now key token] is [jwt.verify(token, key).userId] at time
      [now]; [None] stands for the exception thrown on a malformed, expired
      or wrongly signed token;
    - [bcrypt_hash salt password] is [bcrypt.hash(password, 10)] with the
      salt drawn for this call, [bcrypt_compare password hash] is
      [bcrypt.compare];
    - [castObjectId s] is the Mongoose cast of a string to an ObjectId;
      [None] stands for the CastError;
    - [parseDate s] is the Mongoose cast of a non-empty string to a Date;
      [None] stands for the CastError;
    - [error_message e] is the [message] of the exception [e]. *)
Class Libs := {
  jwt_sign : Z -> string -> ObjectId -> string;
  jwt_verify : Z -> string -> string -> option string;
  bcrypt_hash : string -> string -> string;
  bcrypt_compare : string -> string -> bool;
  castObjectId : string -> option ObjectId;
  parseDate : string -> option Date;
  error_message : Error -> string
}.

(** ** The schemas *)

(** models/FormData.js.  The [_id] that Mongoose adds to a user document is
    never read by a handler and is left out. *)
Module User.
Record t := mk {
  userId : ObjectId;
  bookeduser : list ObjectId;
  role : string;
  firstName : string;
  lastName : string;
  email : string;
  password : string;
  phone : string;
  address : string;
  country : string;
  state : string;
  description : string
}.

(** The projection [.select("-password")]. *)
Record view := mkView {
  v_userId : ObjectId;
  v_bookeduser : list ObjectId;
  v_role : string;
  v_firstName : string;
  v_lastName : string;
  v_email : string;
  v_phone : string;
  v_address : string;
  v_country : string;
  v_state : string;
  v_description : string
}.

Definition select_minus_password (u : t) : view :=
  {| v_userId := userId u; v_bookeduser := bookeduser u; v_role := role u;
     v_firstName := firstName u; v_lastName := lastName u;
     v_email := email u; v_phone := phone u; v_address := address u;
     v_country := country u; v_state := state u;
     v_description := description u |}.
End User.

(** models/eventModel.js.  An element of [bookeduser] is an ObjectId or
    [null] ([None]). *)
Module Event.
Record t := mk {
  name : string;
  genre : string;
  host : string;
  image : option string;
  description : string;
  location : string;
  date : Date;
  userId : option ObjectId;
  slots : Z;
  bookeduser : list (option ObjectId);
  link : string
}.

Definition set_bookeduser (l : list (option ObjectId)) (e : t) : t :=
  {| name := name e; genre := genre e; host := host e; image := image e;
     description := description e; location := location e; date := date e;
     userId := userId e; slots := slots e; bookeduser := l;
     link := link e |}.
End Event.

(** models/createPostFormData.js *)
Module Post.
Record t := mk {
  userId : ObjectId;
  userName : string;
  message : string;
  dateTime : Date;
  likedUsers : list ObjectId
}.

Definition set_likedUsers (l : list ObjectId) (p : t) : t :=
  {| userId := userId p; userName := userName p; message := message p;
     dateTime := dateTime p; likedUsers := l |}.
End Post.

(** models/InstrumentModel.js.  A path that is not [required] and has no
    default may be absent: [None]. *)
Module Instrument.
Record t := mk {
  instrumentName : string;
  instrumentDescription : option string;
  category : string;
  amount : option string;
  image : option string;
  userId : string;
  userName : string;
  address : option string;
  contactNumber : option string;
  status : string;
  rentedDate : option Date;
  expectedReturnDate : option Date;
  renterId : option string
}.

(** The four assignments [instrument.status = ...],
    [instrument.rentedDate = ...], [instrument.expectedReturnDate = ...],
    [instrument.renterId = ...] of the rent and return handlers. *)
Definition set_rental (st : string) (rd erd : option Date)
    (r : option string) (i : t) : t :=
  {| instrumentName := instrumentName i;
     instrumentDescription := instrumentDescription i;
     category := category i; amount := amount i; image := image i;
     userId := userId i; userName := userName i; address := address i;
     contactNumber := contactNumber i;
     status := st; rentedDate := rd; expectedReturnDate := erd;
     renterId := r |}.
End Instrument.

(** A stored document together with its [_id]. *)
Definition Doc (T : Type) : Type := ObjectId * T.

(** ** The world: collections and broadcasts *)

(** What [io.emit] has sent to the connected clients: the events
    ["newPost"], ["updatePost"] and ["deletePost"] with their payloads. *)
Inductive Emit :=
| newPost_event (post : Doc Post.t)
| updatePost_event (post : Doc Post.t)
| deletePost_event (id : ObjectId).

Record World := mkWorld {
  users : list User.t;
  events : gmap ObjectId Event.t;
  posts : gmap ObjectId Post.t;
  instruments : gmap ObjectId Instrument.t;
  emitted : list Emit
}.

Definition set_users (us : list User.t) (w : World) : World :=
  {| users := us; events := events w; posts := posts w;
     instruments := instruments w; emitted := emitted w |}.

Definition set_events (es : gmap ObjectId Event.t) (w : World) : World :=
  {| users := users w; events := es; posts := posts w;
     instruments := instruments w; emitted := emitted w |}.

Definition set_posts (ps : gmap ObjectId Post.t) (w : World) : World :=
  {| users := users w; events := events w; posts := ps;
     instruments := instruments w; emitted := emitted w |}.

Definition set_instruments (ins : gmap ObjectId Instrument.t) (w : World)
    : World :=
  {| users := users w; events := events w; posts := posts w;
     instruments := ins; emitted := emitted w |}.

Definition emit (e : Emit) (w : World) : World :=
  {| users := users w; events := events w; posts := posts w;
     instruments := instruments w; emitted := emitted w ++ [e] |}.

(** ** Requests and responses *)

(** [body] is the parsed JSON object [req.body] restricted to its string
    members ([body !! "email"] is [req.body.email], [None] when undefined);
    [file] is [req.file.filename] when multer stored an upload; [now] is the
    time at which the request is served; [fresh] and [salt] are the ObjectId
    and the bcrypt salt generated while serving it. *)
Record Request := mkRequest {
  authorization : option string;
  param_id : string;
  body : gmap string string;
  file : option string;
  now : Z;
  fresh : ObjectId;
  salt : string
}.

Inductive Json :=
| Message (message : string)
| SuccessMessage (success : bool) (message : string)
| ErrorMessage (error : string)
| TokenBody (token : string)
| NamesBody (usernames : list string)
| EventsBody (success : bool) (events : list (Doc Event.t))
| RsvpBody (success : bool) (message : string) (event : Doc Event.t)
| UserBody (user : User.view)
| ProfileBody (message : string) (user : User.view)
| PostBody (post : Doc Post.t)
| InstrumentBody (message : string) (instrument : Doc Instrument.t).

Record Response := mkResponse { status : nat; json : Json }.

(** ** Handlers: state, early [return res...] and exceptions *)

Inductive Outcome (A : Type) : Type :=
| Ok (a : A)
| Sent (r : Response)
| Thrown (e : Error).
Arguments Ok {A} a.
Arguments Sent {A} r.
Arguments Thrown {A} e.

Definition Handler (A : Type) : Type := World -> Outcome A * World.

Definition ret {A} (a : A) : Handler A := fun w => (Ok a, w).

Definition bind {A B} (m : Handler A) (k : A -> Handler B) : Handler B :=
  fun w =>
    match m w with
    | (Ok a, w') => k a w'
    | (Sent r, w') => (Sent r, w')
    | (Thrown e, w') => (Thrown e, w')
    end.

(** [return res.status(c).json(j)] *)
Definition send {A} (c : nat) (j : Json) : Handler A :=
  fun w => (Sent (mkResponse c j), w).

Definition throw {A} (e : Error) : Handler A := fun w => (Thrown e, w).

Definition read : Handler World := fun w => (Ok w, w).

Definition write (f : World -> World) : Handler unit :=
  fun w => (Ok tt, f w).

(** A library call that throws [e] when it has no result. *)
Definition orThrow {A} (e : Error) (o : option A) : Handler A :=
  match o with Some a => ret a | None => throw e end.

Declare Scope handler_scope.
Delimit Scope handler_scope with handler.
Notation "x <- m ;; k" := (bind m (fun x => k))
  (at level 100, m at next level, right associativity) : handler_scope.
Notation "m ;;; k" := (bind m (fun _ => k))
  (at level 100, right associativity) : handler_scope.

(** [try { h } catch (error) { res.status(c).json(j error) }]: whatever the
    body wrote before it threw stays written. *)
Definition try_catch (h : Handler Response) (c : nat) (j : Error -> Json)
    : World -> Response * World :=
  fun w =>
    match h w with
    | (Ok r, w') => (r, w')
    | (Sent r, w') => (r, w')
    | (Thrown e, w') => (mkResponse c (j e), w')
    end.

(** ** JavaScript and Mongoose helpers *)

(** [s.split(sep)] for a separator of one character. *)
Fixpoint split (sep : ascii) (s : string) : list string :=
  match s with
  | EmptyString => [EmptyString]
  | String c s' =>
      if Ascii.eqb c sep then EmptyString :: split sep s'
      else match split sep s' with
           | [] => [String c EmptyString]
           | piece :: pieces => String c piece :: pieces
           end
  end.

(** [req.headers.authorization?.split(" ")[1]] *)
Definition bearer_token (req : Request) : option string :=
  match authorization req with
  | None => None
  | Some a => split " " a !! 1%nat
  end.

(** A string-or-undefined value that passes [if (v)]: defined and not
    empty. *)
Definition truthy (v : option string) : option string :=
  match v with
  | Some (String _ _ as s) => Some s
  | _ => None
  end.

(** The [required: true] validator of a String path. *)
Definition required (v : option string) : option string := truthy v.

(** The first element that satisfies [f], with the elements before and
    after it. *)
Fixpoint split_first {A} (f : A -> bool) (l : list A)
    : option (list A * A * list A) :=
  match l with
  | [] => None
  | x :: l' =>
      if f x then Some ([], x, l')
      else match split_first f l' with
           | Some (before, y, after) => Some (x :: before, y, after)
           | None => None
           end
  end.

(** [obj == this[i]], the test of Mongoose's [includes] on an array of
    ObjectIds: an ObjectId is compared through its text, and undefined
    equals null. *)
Definition loose_eq (obj : option string) (x : option ObjectId) : bool :=
  bool_decide (obj = x).

Definition includes (obj : option string) (l : list (option ObjectId))
    : bool :=
  existsb (loose_eq obj) l.

(** The object [updateData] of PUT /user; an undefined member is no update
    of its path. *)
Record UpdateData := mkUpdateData {
  u_firstName : option string;
  u_lastName : option string;
  u_email : option string;
  u_country : option string;
  u_state : option string;
  u_description : option string;
  u_password : option string
}.

Definition apply_update (d : UpdateData) (u : User.t) : User.t :=
  {| User.userId := User.userId u;
     User.bookeduser := User.bookeduser u;
     User.role := User.role u;
     User.firstName := default (User.firstName u) (u_firstName d);
     User.lastName := default (User.lastName u) (u_lastName d);
     User.email := default (User.email u) (u_email d);
     User.password := default (User.password u) (u_password d);
     User.phone := User.phone u;
     User.address := User.address u;
     User.country := default (User.country u) (u_country d);
     User.state := default (User.state u) (u_state d);
     User.description := default (User.description u) (u_description d) |}.

Section Handlers.
Context `{L : Libs}.
Local Open Scope handler_scope.

(** The cast of a Date path: undefined and the empty string give no date,
    any other string must parse. *)
Definition cast_date (v : option string) : option (option Date) :=
  match truthy v with
  | None => Some None
  | Some s => Some <$> parseDate s
  end.

(** [Model.findById(id)] on the collection [coll]. *)
Definition findById {T} (coll : World -> gmap ObjectId T) (id : string)
    : Handler (option (Doc T)) :=
  o <- orThrow (CastError id) (castObjectId id) ;;
  w <- read ;;
  ret (match coll w !! o with
       | Some d => Some (o, d)
       | None => None
       end).

(** [FormDataModel.findOne({ email })]: every stored user has an email, so
    an undefined email matches nobody. *)
Definition findOne_email (email : option string) (us : list User.t)
    : option User.t :=
  match email with
  | Some e => List.find (fun u => bool_decide (User.email u = e)) us
  | None => None
  end.

(** [FormDataModel.findOne({ userId })] *)
Definition findOne_userId (userId : string) : Handler (option User.t) :=
  o <- orThrow (CastError userId) (castObjectId userId) ;;
  w <- read ;;
  ret (List.find (fun u => bool_decide (User.userId u = o)) (users w)).

(** [new FormDataModel({...})] and the validation run by [save()]. *)
Definition new_user (userId : ObjectId)
    (role firstName lastName email password phone address country state
       description : option string) : option User.t :=
  role ← required role;
  firstName ← required firstName;
  lastName ← required lastName;
  email ← required email;
  password ← required password;
  phone ← required phone;
  address ← required address;
  country ← required country;
  state ← required state;
  Some {| User.userId := userId; User.bookeduser := [];
          User.role := role; User.firstName := firstName;
          User.lastName := lastName; User.email := email;
          User.password := password; User.phone := phone;
          User.address := address; User.country := country;
          User.state := state;
          User.description := default "" description |}.

(** The insert behind [newUser.save()]; the [unique] index on [email]
    refuses a second document with the same email. *)
Definition insert_user (u : User.t) : Handler unit :=
  w <- read ;;
  if existsb (fun v => bool_decide (User.email v = User.email u)) (users w)
  then throw DuplicateKeyError
  else write (set_users (users w ++ [u])).

(** *** POST /register *)
Definition register (req : Request) : World -> Response * World :=
  try_catch
    (let role := body req !! "role" in
     let firstName := body req !! "firstName" in
     let lastName := body req !! "lastName" in
     let email := body req !! "email" in
     let password := body req !! "password" in
     let phone := body req !! "phone" in
     let address := body req !! "address" in
     let country := body req !! "country" in
     let state := body req !! "state" in
     let description := body req !! "description" in
     w <- read ;;
     match findOne_email email (users w) with
     | Some existingUser => send 400 (Message "User already exists")
     | None =>
         hashedPassword <-
           orThrow BcryptError (bcrypt_hash (salt req) <$> password) ;;
         newUser <-
           orThrow ValidationError
             (new_user (fresh req) role firstName lastName email
                (Some hashedPassword) phone address country state
                (if bool_decide (role = Some "Artist")
                 then description else Some "")) ;;
         insert_user newUser ;;;
         ret (mkResponse 201 (Message "User registered successfully"))
     end)
    500 (fun _ => Message "Server error").

(** *** POST /login *)
Definition login (req : Request) : World -> Response * World :=
  try_catch
    (let email := body req !! "email" in
     let password := body req !! "password" in
     w <- read ;;
     match findOne_email email (users w) with
     | None => send 400 (Message "Invalid credentials")
     | Some user =>
         isMatch <-
           orThrow BcryptError
             ((fun p => bcrypt_compare p (User.password user))
                <$> password) ;;
         if negb isMatch then send 400 (Message "Invalid credentials")
         else
           let token := jwt_sign (now req) SECRET_KEY (User.userId user) in
           ret (mkResponse 200 (TokenBody token))
     end)
    500 (fun _ => Message "Server error").

(** *** GET /usernames *)
Definition usernames (req : Request) : World -> Response * World :=
  try_catch
    (w <- read ;;
     let users := users w in
     if (length users =? 0)%nat then send 404 (Message "No users found")
     else
       let usernames :=
         map (fun user =>
                User.firstName user +:+ " " +:+ User.lastName user) users in
       ret (mkResponse 200 (NamesBody usernames)))
    500 (fun _ => Message "Server error").

(** [FormDataModel.findOneAndUpdate({ userId }, updateData, { new: true })];
    validators do not run on an update, the [unique] index on [email]
    does. *)
Definition findOneAndUpdate (userId : string) (d : UpdateData)
    : Handler (option User.t) :=
  o <- orThrow (CastError userId) (castObjectId userId) ;;
  w <- read ;;
  match split_first (fun u => bool_decide (User.userId u = o)) (users w) with
  | None => ret None
  | Some (before, u, after) =>
      let u' := apply_update d u in
      if existsb (fun v => bool_decide (User.email v = User.email u'))
           (before ++ after)
      then throw DuplicateKeyError
      else write (set_users (before ++ u' :: after)) ;;; ret (Some u')
  end.

(** *** PUT /user *)
Definition update_user (req : Request) : World -> Response * World :=
  try_catch
    (match truthy (bearer_token req) with
     | None => send 401 (Message "Unauthorized")
     | Some token =>
         userId <-
           orThrow JsonWebTokenError
             (jwt_verify (now req) SECRET_KEY token) ;;
         let firstName := body req !! "firstName" in
         let lastName := body req !! "lastName" in
         let email := body req !! "email" in
         let password := body req !! "password" in
         let country := body req !! "country" in
         let state := body req !! "state" in
         let description := body req !! "description" in
         let updateData :=
           {| u_firstName := firstName; u_lastName := lastName;
              u_email := email; u_country := country; u_state := state;
              u_description := description;
              u_password := bcrypt_hash (salt req) <$> truthy password |} in
         updatedUser <- findOneAndUpdate userId updateData ;;
         match updatedUser with
         | None => send 404 (Message "User not found")
         | Some updatedUser =>
             ret (mkResponse 200
                    (ProfileBody "Profile updated"
                       (User.select_minus_password updatedUser)))
         end
     end)
    500 (fun _ => Message "Server error").

(** *** GET /eventsdata *)
Definition eventsdata (req : Request) : World -> Response * World :=
  try_catch
    (w <- read ;;
     let events := map_to_list (events w) in
     if (length events =? 0)%nat
     then send 404 (SuccessMessage false "No events found")
     else ret (mkResponse 200 (EventsBody true events)))
    500 (fun error =>
           SuccessMessage false
             ("Failed to fetch events: " +:+ error_message error)).

(** [event.bookeduser.push(userId)]: the value is cast to the element type
    of the array. *)
Definition push_bookeduser (l : list (option ObjectId))
    (userId : option string) : Handler (list (option ObjectId)) :=
  match userId with
  | None => ret (l ++ [None])
  | Some s => o <- orThrow (CastError s) (castObjectId s) ;; ret (l ++ [Some o])
  end.

(** *** POST /eventsdata/:id/rsvp *)
Definition rsvp (req : Request) : World -> Response * World :=
  let eventId := param_id req in
  let userId := body req !! "userId" in
  try_catch
    (event <- findById events eventId ;;
     match event with
     | None => send 404 (SuccessMessage false "Event not found")
     | Some (id, event) =>
         if includes userId (Event.bookeduser event)
         then send 400 (SuccessMessage false "User already RSVP'd")
         else
           bookeduser <- push_bookeduser (Event.bookeduser event) userId ;;
           let event := Event.set_bookeduser bookeduser event in
           write (fun w => set_events (<[id := event]> (events w)) w) ;;;
           ret (mkResponse 200 (RsvpBody true "RSVP successful" (id, event)))
     end)
    500 (fun error => SuccessMessage false (error_message error)).

(** *** GET /user *)
Definition get_user (req : Request) : World -> Response * World :=
  try_catch
    (match truthy (bearer_token req) with
     | None => send 401 (Message "Unauthorized")
     | Some token =>
         userId <-
           orThrow JsonWebTokenError
             (jwt_verify (now req) SECRET_KEY token) ;;
         user <- findOne_userId userId ;;
         match user with
         | None => send 404 (Message "User not found")
         | Some user =>
             ret (mkResponse 200
                    (UserBody (User.select_minus_password user)))
         end
     end)
    500 (fun _ => Message "Server error").

(** [new Post({...})] and the validation run by [save()]; [dateTime]
    defaults to the time of the write. *)
Definition new_post (userId : ObjectId) (userName message : string)
    (now : Date) : option Post.t :=
  userName ← required (Some userName);
  message ← required (Some message);
  Some {| Post.userId := userId; Post.userName := userName;
          Post.message := message; Post.dateTime := now;
          Post.likedUsers := [] |}.

(** *** POST /posts *)
Definition create_post (req : Request) : World -> Response * World :=
  let token := body req !! "token" in
  let message := body req !! "message" in
  match truthy token, truthy message with
  | Some token, Some message =>
      try_catch
        (userId <-
           orThrow JsonWebTokenError
             (jwt_verify (now req) SECRET_KEY token) ;;
         user <- findOne_userId userId ;;
         match user with
         | None => send 404 (Message "User not found")
         | Some user =>
             newPost <-
               orThrow ValidationError
                 (new_post (User.userId user)
                    (User.firstName user +:+ " " +:+ User.lastName user)
                    message (now req)) ;;
             write (fun w =>
                      set_posts (<[fresh req := newPost]> (posts w)) w) ;;;
             write (emit (newPost_event (fresh req, newPost))) ;;;
             ret (mkResponse 201 (PostBody (fresh req, newPost)))
         end)
        500 (fun _ => Message "Server error")
  | _, _ =>
      fun w => (mkResponse 400 (Message "Token and message are required"), w)
  end.

(** *** PUT /posts/like/:id *)
Definition like (req : Request) : World -> Response * World :=
  match truthy (bearer_token req) with
  | None => fun w => (mkResponse 401 (Message "Unauthorized"), w)
  | Some token =>
      try_catch
        (userId <-
           orThrow JsonWebTokenError
             (jwt_verify (now req) SECRET_KEY token) ;;
         post <- findById posts (param_id req) ;;
         match post with
         | None => send 404 (Message "Post not found")
         | Some (id, post) =>
             let alreadyLiked :=
               existsb (fun id => bool_decide (id = userId))
                 (Post.likedUsers post) in
             likedUsers <-
               (if alreadyLiked
                then
                  ret (List.filter (fun id => negb (bool_decide (id = userId)))
                         (Post.likedUsers post))
                else
                  o <- orThrow (CastError userId) (castObjectId userId) ;;
                  ret (Post.likedUsers post ++ [o])) ;;
             let post := Post.set_likedUsers likedUsers post in
             write (fun w => set_posts (<[id := post]> (posts w)) w) ;;;
             write (emit (updatePost_event (id, post))) ;;;
             ret (mkResponse 200 (PostBody (id, post)))
         end)
        500 (fun _ => Message "Server error")
  end.

(** *** DELETE /posts/:id *)
Definition delete_post (req : Request) : World -> Response * World :=
  match truthy (bearer_token req) with
  | None => fun w => (mkResponse 401 (Message "Unauthorized"), w)
  | Some token =>
      try_catch
        (userId <-
           orThrow JsonWebTokenError
             (jwt_verify (now req) SECRET_KEY token) ;;
         post <- findById posts (param_id req) ;;
         match post with
         | None => send 404 (Message "Post not found")
         | Some (id, post) =>
             if negb (bool_decide (Post.userId post = userId))
             then send 403 (Message "You cannot delete this post")
             else
               write (fun w => set_posts (delete id (posts w)) w) ;;;
               write (emit (deletePost_event id)) ;;;
               ret (mkResponse 200 (Message "Post deleted successfully"))
         end)
        500 (fun _ => Message "Server error")
  end.

(** [new Instrument({...})] and the validation run by [save()]: the
    [required] paths, the casts of the two Date paths, and the default of
    [status]. *)
Definition new_instrument
    (instrumentName instrumentDescription amount : option string)
    (image : string)
    (userId userName address contactNumber status rentedDate
       expectedReturnDate renterId category : option string)
    : option Instrument.t :=
  instrumentName ← required instrumentName;
  category ← required category;
  userId ← required userId;
  userName ← required userName;
  rentedDate ← cast_date rentedDate;
  expectedReturnDate ← cast_date expectedReturnDate;
  Some {| Instrument.instrumentName := instrumentName;
          Instrument.instrumentDescription := instrumentDescription;
          Instrument.category := category;
          Instrument.amount := amount;
          Instrument.image := Some image;
          Instrument.userId := userId;
          Instrument.userName := userName;
          Instrument.address := address;
          Instrument.contactNumber := contactNumber;
          Instrument.status := default "available" status;
          Instrument.rentedDate := rentedDate;
          Instrument.expectedReturnDate := expectedReturnDate;
          Instrument.renterId := renterId |}.

(** The insert behind [newInstrument.save()], under the freshly generated
    [_id]. *)
Definition insert_instrument (id : ObjectId) (i : Instrument.t)
    : Handler unit :=
  w <- read ;;
  match instruments w !! id with
  | Some _ => throw DuplicateKeyError
  | None => write (set_instruments (<[id := i]> (instruments w)))
  end.

(** *** POST /addnewinstrument *)
Definition addnewinstrument (req : Request) : World -> Response * World :=
  try_catch
    (let instrumentName := body req !! "instrumentName" in
     let instrumentDescription := body req !! "instrumentDescription" in
     let amount := body req !! "amount" in
     let userId := body req !! "userId" in
     let userName := body req !! "userName" in
     let address := body req !! "address" in
     let contactNumber := body req !! "contactNumber" in
     let status := body req !! "status" in
     let rentedDate := body req !! "rentedDate" in
     let expectedReturnDate := body req !! "expectedReturnDate" in
     let renterId := body req !! "renterId" in
     let category := body req !! "category" in
     newInstrument <-
       orThrow ValidationError
         (new_instrument instrumentName instrumentDescription amount
            (match file req with Some filename => filename | None => "" end)
            userId userName address contactNumber status rentedDate
            expectedReturnDate renterId category) ;;
     insert_instrument (fresh req) newInstrument ;;;
     ret (mkResponse 201 (Message "Instrument added successfully!")))
    500 (fun _ => ErrorMessage "Failed to add instrument").

(** [instrument.save()] after the rental paths were assigned; the two Date
    paths are cast from what was assigned to them. *)
Definition save_rental (id : ObjectId) (instrument : Instrument.t)
    (status : string) (rentedDate expectedReturnDate : option string)
    (renterId : string) : Handler Instrument.t :=
  rentedDate <- orThrow ValidationError (cast_date rentedDate) ;;
  expectedReturnDate <-
    orThrow ValidationError (cast_date expectedReturnDate) ;;
  let instrument :=
    Instrument.set_rental status rentedDate expectedReturnDate
      (Some renterId) instrument in
  write (fun w => set_instruments (<[id := instrument]> (instruments w)) w) ;;;
  ret instrument.

(** *** PUT /instruments/rent/:id *)
Definition rent (req : Request) : World -> Response * World :=
  let rentedDate := body req !! "rentedDate" in
  let expectedReturnDate := body req !! "expectedReturnDate" in
  let instrumentId := param_id req in
  try_catch
    (match truthy (bearer_token req) with
     | None => send 401 (Message "Unauthorized")
     | Some token =>
         renterId <-
           orThrow JsonWebTokenError
             (jwt_verify (now req) SECRET_KEY token) ;;
         instrument <- findById instruments instrumentId ;;
         match instrument with
         | None => send 404 (Message "Instrument not found.")
         | Some (id, instrument) =>
             if bool_decide (Instrument.userId instrument = renterId)
             then send 400 (Message "You cannot rent your own instrument.")
             else if negb (bool_decide
                             (Instrument.status instrument = "available"))
             then send 400 (Message "Instrument is not available for rent.")
             else
               instrument <-
                 save_rental id instrument "not available" rentedDate
                   expectedReturnDate renterId ;;
               ret (mkResponse 200
                      (InstrumentBody "Instrument rented successfully!"
                         (id, instrument)))
         end
     end)
    500 (fun _ => ErrorMessage "Unable to rent the instrument.").

(** *** PUT /instruments/return/:id *)
Definition return_instrument (req : Request) : World -> Response * World :=
  let instrumentId := param_id req in
  try_catch
    (match truthy (bearer_token req) with
     | None => send 401 (Message "Unauthorized")
     | Some token =>
         userId <-
           orThrow JsonWebTokenError
             (jwt_verify (now req) SECRET_KEY token) ;;
         instrument <- findById instruments instrumentId ;;
         match instrument with
         | None => send 404 (Message "Instrument not found.")
         | Some (id, instrument) =>
             if negb (bool_decide
                        (Instrument.renterId instrument = Some userId))
             then
               send 400 (Message "You are not the renter of this instrument.")
             else
               instrument <- save_rental id instrument "available"
                               (Some "") (Some "") "" ;;
               ret (mkResponse 200
                      (InstrumentBody
                         "Instrument returned and status updated to available!"
                         (id, instrument)))
         end
     end)
    500 (fun _ => ErrorMessage "Unable to return the instrument.").
End Handlers.

(** ** The other handlers of server.js *)

(** A user as [populate] selects it:
    [select: "firstName lastName email phone"]. *)
Record BookedUser := mkBookedUser {
  b_firstName : string;
  b_lastName : string;
  b_email : string;
  b_phone : string
}.

(** The bodies of the handlers below; [Plain] is a body of one of the shapes
    of [Json]. *)
Inductive Content :=
| Plain (j : Json)
| EventContent (success : bool) (event : Doc Event.t)
| BookedUsersContent (success : bool) (bookedUsers : list BookedUser)
| PostsContent (posts : list (Doc Post.t))
| InstrumentsContent (instruments : list (Doc Instrument.t))
| InstrumentContent (instrument : Doc Instrument.t).

Record Reply := mkReply { reply_status : nat; content : Content }.

Definition plain (r : Response) : Reply :=
  mkReply (status r) (Plain (json r)).

(** [try { h } catch (error) { res.status(c).json(j error) }] for these
    handlers. *)
Definition try_reply (h : Handler Reply) (c : nat) (j : Error -> Json)
    : World -> Reply * World :=
  fun w =>
    match h w with
    | (Ok r, w') => (r, w')
    | (Sent r, w') => (plain r, w')
    | (Thrown e, w') => (plain (mkResponse c (j e)), w')
    end.

(** [{ dateTime: -1 }]: the later post comes first. *)
Definition newer_first (p q : Doc Post.t) : Prop :=
  (Post.dateTime q.2 ≤ Post.dateTime p.2)%Z.

#[global] Instance newer_first_dec (p q : Doc Post.t)
    : Decision (newer_first p q) :=
  Z_le_dec (Post.dateTime q.2) (Post.dateTime p.2).

Section OtherHandlers.
Context `{L : Libs}.
Local Open Scope handler_scope.

(** [castNumber s] is the Mongoose cast of a non-empty string to the
    Number of [slots], for the whole numbers that [Event.slots] holds;
    [isValid s] is [mongoose.Types.ObjectId.isValid(s)]; [user_of_id us o]
    is the user document of the collection whose [_id] is [o], the one a
    reference of [bookeduser] points to. *)
Variable castNumber : string -> option Z.
Variable isValid : string -> bool.
Variable user_of_id : list User.t -> ObjectId -> option User.t.

(** [.populate({ path: "bookeduser", select: ... })]: each reference is
    replaced by the selected fields of its user; null elements and
    references without a user are dropped. *)
Definition populate (us : list User.t) (refs : list (option ObjectId))
    : list BookedUser :=
  omap (fun r =>
          match r with
          | Some o =>
              (fun u => mkBookedUser (User.firstName u) (User.lastName u)
                          (User.email u) (User.phone u))
                <$> user_of_id us o
          | None => None
          end) refs.

(** *** GET /event/:id/booked-users *)
Definition booked_users (req : Request) : World -> Reply * World :=
  try_reply
    (let eventId := param_id req in
     if negb (isValid eventId)
     then send 400 (SuccessMessage false "Invalid event ID")
     else
       event <- findById events eventId ;;
       match event with
       | None => send 404 (SuccessMessage false "Event not found")
       | Some (id, event) =>
           w <- read ;;
           ret (mkReply 200
                  (BookedUsersContent true
                     (populate (users w) (Event.bookeduser event))))
       end)
    500 (fun error =>
           SuccessMessage false ("Server error: " +:+ error_message error)).

(** [new Event({...})] and the validation run by [save()], for fields the
    handler has found non-empty: the casts of [date], [userId], [slots] and
    of the elements of [bookeduser]. *)
Definition new_event
    (name genre host date description location userId slots link : string)
    (bookeduser : list string) (image : option string) : option Event.t :=
  date ← parseDate date;
  userId ← castObjectId userId;
  slots ← castNumber slots;
  bookeduser ← mapM castObjectId bookeduser;
  Some {| Event.name := name; Event.genre := genre; Event.host := host;
          Event.image := image; Event.description := description;
          Event.location := location; Event.date := date;
          Event.userId := Some userId; Event.slots := slots;
          Event.bookeduser := Some <$> bookeduser; Event.link := link |}.

(** *** POST /addevent

    [bookeduser] is [req.body.bookeduser] when the body gives it as an array
    of strings, [None] when the body does not give it. *)
Definition addevent (bookeduser : option (list string)) (req : Request)
    : World -> Reply * World :=
  try_reply
    (let name := truthy (body req !! "name") in
     let genre := truthy (body req !! "genre") in
     let host := truthy (body req !! "host") in
     let date := truthy (body req !! "date") in
     let description := truthy (body req !! "description") in
     let location := truthy (body req !! "location") in
     let userId := truthy (body req !! "userId") in
     let slots := truthy (body req !! "slots") in
     let link := truthy (body req !! "link") in
     let bookeduser := default [] bookeduser in
     match name, genre, host, date, description, location, userId, slots,
           link with
     | Some name, Some genre, Some host, Some date, Some description,
       Some location, Some userId, Some slots, Some link =>
         newEvent <-
           orThrow ValidationError
             (new_event name genre host date description location userId
                slots link bookeduser (file req)) ;;
         w <- read ;;
         match events w !! fresh req with
         | Some _ => throw DuplicateKeyError
         | None =>
             write (set_events (<[fresh req := newEvent]> (events w))) ;;;
             ret (mkReply 201 (EventContent true (fresh req, newEvent)))
         end
     | _, _, _, _, _, _, _, _, _ =>
         send 400 (SuccessMessage false "Missing required fields")
     end)
    500 (fun _ => SuccessMessage false "Failed to add event").

(** *** GET /eventsdata/:id *)
Definition get_event (req : Request) : World -> Reply * World :=
  try_reply
    (let eventId := param_id req in
     event <- findById events eventId ;;
     match event with
     | None => send 404 (SuccessMessage false "Event not found")
     | Some event => ret (mkReply 200 (EventContent true event))
     end)
    500 (fun error =>
           SuccessMessage false
             ("Failed to fetch event: " +:+ error_message error)).

(** *** GET /posts

    [Post.find().sort({ dateTime: -1 })]; the order of posts of the same
    time is the store's, here that of the merge sort. *)
Definition get_posts (req : Request) : World -> Reply * World :=
  try_reply
    (w <- read ;;
     let posts := merge_sort newer_first (map_to_list (posts w)) in
     ret (mkReply 200 (PostsContent posts)))
    500 (fun _ => Message "Server error").

(** *** GET /instruments *)
Definition get_instruments (req : Request) : World -> Reply * World :=
  try_reply
    (w <- read ;;
     let instruments := map_to_list (instruments w) in
     ret (mkReply 200 (InstrumentsContent instruments)))
    500 (fun _ => ErrorMessage "Unable to fetch instruments.").

(** *** GET /instruments/:id *)
Definition get_instrument (req : Request) : World -> Reply * World :=
  try_reply
    (let id := param_id req in
     instrument <- findById instruments id ;;
     match instrument with
     | None => send 404 (ErrorMessage "Instrument not found")
     | Some instrument => ret (mkReply 200 (InstrumentContent instrument))
     end)
    500 (fun _ => ErrorMessage "Internal server error").
End OtherHandlers.

(** ** A reference implementation of the libraries

    Small executable stand-ins for the libraries, on which the handlers can
    be run: tokens are the key and the subject in clear, hashes are the
    password behind a marker, ObjectIds are 24 hexadecimal digits rendered
    in lower case, a Date is written as its number of milliseconds. *)
Module Reference.
Definition is_digit (c : ascii) : bool :=
  let n := nat_of_ascii c in (48 <=? n)%nat && (n <=? 57)%nat.

Definition is_hex (c : ascii) : bool :=
  let n := nat_of_ascii c in
  is_digit c || ((65 <=? n)%nat && (n <=? 70)%nat)
             || ((97 <=? n)%nat && (n <=? 102)%nat).

Definition lower (c : ascii) : ascii :=
  let n := nat_of_ascii c in
  if (65 <=? n)%nat && (n <=? 90)%nat then ascii_of_nat (n + 32) else c.

Definition hex_objectid (s : string) : option ObjectId :=
  let cs := String.list_ascii_of_string s in
  if (length cs =? 24)%nat && forallb is_hex cs
  then Some (String.string_of_list_ascii (map lower cs))
  else None.

Fixpoint strip_prefix (p s : string) : option string :=
  match p, s with
  | EmptyString, _ => Some s
  | String a p', String b s' =>
      if Ascii.eqb a b then strip_prefix p' s' else None
  | String _ _, EmptyString => None
  end.

Definition clear_sign (now : Z) (key : string) (userId : ObjectId) : string :=
  key +:+ "." +:+ userId.

Definition clear_verify (now : Z) (key token : string) : option string :=
  strip_prefix (key +:+ ".") token.

Definition marker_hash (salt password : string) : string :=
  "$2b$10$" +:+ password.

Definition marker_compare (password hash : string) : bool :=
  bool_decide (hash = "$2b$10$" +:+ password).

Definition millis_date (s : string) : option Date :=
  let cs := String.list_ascii_of_string s in
  if forallb is_digit cs
  then Some (fold_left
               (fun acc c => (10 * acc + Z.of_nat (nat_of_ascii c - 48))%Z)
               cs 0%Z)
  else None.

Definition plain_message (e : Error) : string :=
  match e with
  | JsonWebTokenError => "jwt malformed"
  | BcryptError => "data and hash arguments required"
  | CastError value => "Cast to ObjectId failed for value " +:+ value
  | ValidationError => "Validation failed"
  | DuplicateKeyError => "E11000 duplicate key error"
  end.

Definition libs : Libs :=
  {| jwt_sign := clear_sign;
     jwt_verify := clear_verify;
     bcrypt_hash := marker_hash;
     bcrypt_compare := marker_compare;
     castObjectId := hex_objectid;
     parseDate := millis_date;
     error_message := plain_message |}.
End Reference.

(** Stand-ins for the libraries of the other handlers: a Number is written
    in decimal digits, an identifier is valid when it casts, and the [_id]
    of the k-th stored user, which [User.t] leaves out, is the k-th of a
    list [ids] given beside the collection. *)
Module Standin.
Definition digits_number (s : string) : option Z := Reference.millis_date s.

Definition casts (s : string) : bool :=
  bool_decide (is_Some (Reference.hex_objectid s)).

Definition by_id (ids : list ObjectId) (us : list User.t) (o : ObjectId)
    : option User.t :=
  snd <$> List.find (fun d => bool_decide (d.1 = o)) (zip ids us).
End Standin.

(** ** Notions used to state the properties of the other handlers *)

(** No character of [s] is a space. *)
Fixpoint no_space (s : string) : bool :=
  match s with
  | EmptyString => true
  | String c s' => negb (Ascii.eqb c " ") && no_space s'
  end.

(** The object [updateData] that PUT /user builds from a request. *)
Definition updateData_of `{L : Libs} (req : Request) : UpdateData :=
  {| u_firstName := body req !! "firstName";
     u_lastName := body req !! "lastName";
     u_email := body req !! "email";
     u_country := body req !! "country";
     u_state := body req !! "state";
     u_description := body req !! "description";
     u_password := bcrypt_hash (salt req) <$> truthy (body req !! "password") |}.

(** What PUT /user leaves alone in a user document. *)
Definition fixed_part (u : User.t)
    : ObjectId * list ObjectId * string * string * string :=
  (User.userId u, User.bookeduser u, User.role u, User.phone u,
   User.address u).

(** The fields POST /register needs, those POST /addnewinstrument needs and
    those POST /addevent needs. *)
Definition register_fields : list string :=
  ["role"; "firstName"; "lastName"; "email"; "password"; "phone"; "address";
   "country"; "state"].

Definition instrument_fields : list string :=
  ["instrumentName"; "category"; "userId"; "userName"].

Definition addevent_fields : list string :=
  ["name"; "genre"; "host"; "date"; "description"; "location"; "userId";
   "slots"; "link"].


Definition by_id_guarded `{L : Libs}
    : list (Request → World → Response * World) :=
  [like; delete_post; rent; return_instrument].

Definition readers `{L : Libs}
    : list (Request → World → Response * World) :=
  [login; usernames; eventsdata; get_user].

(** ** Reading a request *)

Section Reading.
Context `{L : Libs}.

(** The user a request is authenticated as: the subject of the verified
    bearer token. *)
Definition requester (req : Request) : option string :=
  match truthy (bearer_token req) with
  | Some token => jwt_verify (now req) SECRET_KEY token
  | None => None
  end.

(** The liked-set of a post. *)
Definition likedSet (p : Post.t) : gset ObjectId :=
  list_to_set (Post.likedUsers p).

(** What the like handler makes of [post.likedUsers] for a requester
    [userId] whose text is that of an ObjectId. *)
Definition toggled (userId : string) (l : list ObjectId) : list ObjectId :=
  if existsb (fun id => bool_decide (id = userId)) l
  then List.filter (fun id => negb (bool_decide (id = userId))) l
  else l ++ [userId].

(** The handlers that read a bearer token from the Authorization header. *)
Definition token_guarded : list (Request → World → Response * World) :=
  [get_user; update_user; like; delete_post; rent; return_instrument].

(** [description] is non-empty only for an Artist. *)
Definition description_only_for_artist (u : User.t) : Prop :=
  User.description u ≠ "" → User.role u = "Artist".
End Reading.

(** ** Sample data, run on the reference libraries *)

Module Sample.
Definition alice : ObjectId := "aaaaaaaaaaaaaaaaaaaaaaa1".
Definition bob : ObjectId := "bbbbbbbbbbbbbbbbbbbbbbb2".
Definition post1 : ObjectId := "0123456789abcdef01234567".
Definition event1 : ObjectId := "89abcdef0123456789abcdef".
Definition guitar1 : ObjectId := "00112233445566778899aabb".

Definition bearer (u : ObjectId) : option string :=
  Some ("Bearer " +:+ SECRET_KEY +:+ "." +:+ u).

Definition request (auth : option string) (id : string)
    (fields : list (string * string)) : Request :=
  {| authorization := auth; param_id := id; body := list_to_map fields;
     file := None; now := 1700000000000%Z;
     fresh := "ffffffffffffffffffffffff"; salt := "s4lt" |}.

Definition alice_post : Post.t :=
  {| Post.userId := alice; Post.userName := "Alice Ames";
     Post.message := "hello"; Post.dateTime := 1699999999000%Z;
     Post.likedUsers := [] |}.

Definition jam : Event.t :=
  {| Event.name := "Jam"; Event.genre := "Jazz"; Event.host := "Alice";
     Event.image := None; Event.description := "Open jam";
     Event.location := "Hall"; Event.date := 1800000000000%Z;
     Event.userId := Some alice; Event.slots := 5%Z;
     Event.bookeduser := []; Event.link := "https://example.org/jam" |}.

Definition guitar : Instrument.t :=
  {| Instrument.instrumentName := "Guitar";
     Instrument.instrumentDescription := None;
     Instrument.category := "Strings"; Instrument.amount := Some "10";
     Instrument.image := Some ""; Instrument.userId := alice;
     Instrument.userName := "Alice Ames"; Instrument.address := None;
     Instrument.contactNumber := None; Instrument.status := "available";
     Instrument.rentedDate := None; Instrument.expectedReturnDate := None;
     Instrument.renterId := None |}.

Definition carol : User.t :=
  {| User.userId := "cccccccccccccccccccccccc"; User.bookeduser := [];
     User.role := "User"; User.firstName := "Carol";
     User.lastName := "Cole"; User.email := "carol@x.com";
     User.password := "$2b$10$pw"; User.phone := "1"; User.address := "2";
     User.country := "3"; User.state := "4"; User.description := "" |}.

Definition rented_guitar : Instrument.t :=
  Instrument.set_rental "not available" (Some 1700000000000%Z)
    (Some 1700600000000%Z) (Some bob) guitar.

Definition world : World :=
  {| users := [carol];
     events := {[ event1 := jam ]};
     posts := {[ post1 := alice_post ]};
     instruments := {[ guitar1 := guitar ]};
     emitted := [] |}.

Definition rented_world : World :=
  set_instruments {[ guitar1 := rented_guitar ]} world.
End Sample.

(** * Properties of the handlers *)

Ltac run :=
  unfold try_catch, bind, orThrow, ret, send, throw, read, write;
  cbn [fst snd].

Ltac open_requester H token Htok :=
  unfold requester in H;
  destruct (truthy (bearer_token _)) as [token|] eqn:Htok;
  [ | discriminate H ].

(** ** Reading the Authorization header *)

Example split_bearer :
  split " " "Bearer abc.def" = ["Bearer"; "abc.def"].
Proof. reflexivity. Qed.

Example split_no_separator : split " " "Bearer" = ["Bearer"].
Proof. reflexivity. Qed.

Example split_two_spaces :
  split " " "Bearer  abc" = ["Bearer"; ""; "abc"].
Proof. reflexivity. Qed.

Lemma split_not_nil (sep : ascii) (s : string) : split sep s ≠ [].
Proof.
  induction s as [|c s IH]; cbn; [done|].
  destruct (Ascii.eqb c sep); [done|]. by destruct (split sep s).
Qed.

(** A request without Authorization header, or whose header has no second
    piece, or an empty one, carries no token. *)
Lemma truthy_bearer_token_None (req : Request) :
  truthy (bearer_token req) = None ↔
  authorization req = None ∨
  ∃ a, authorization req = Some a ∧
       (split " " a !! 1%nat = None ∨ split " " a !! 1%nat = Some "").
Proof.
  unfold bearer_token. destruct (authorization req) as [a|]; cbn.
  - split.
    + intros H. right. exists a. split; [done|].
      destruct (split " " a !! 1%nat) as [[|c t]|]; cbn in H;
        [by right|discriminate|by left].
    + intros [H|(a' & [= <-] & [H|H])]; [discriminate| |]; by rewrite H.
  - split; [by left|done].
Qed.

(** ** Lists of liked users *)

Lemma existsb_eq_elem_of (u : string) (l : list string) :
  existsb (fun id => bool_decide (id = u)) l = true ↔ u ∈ l.
Proof.
  rewrite existsb_exists. split.
  - intros (x & Hin & Hx). apply bool_decide_eq_true in Hx. subst x.
    by apply list_elem_of_In.
  - intros Hin. exists u. split; [by apply list_elem_of_In|].
    by apply bool_decide_eq_true.
Qed.

Lemma elem_of_filter_ne (u x : string) (l : list string) :
  x ∈ List.filter (fun id => negb (bool_decide (id = u))) l ↔ x ∈ l ∧ x ≠ u.
Proof.
  rewrite list_elem_of_In, filter_In, <- list_elem_of_In.
  rewrite negb_true_iff, bool_decide_eq_false. tauto.
Qed.

Lemma filter_ne_absent (u : string) (l : list string) :
  u ∉ l → List.filter (fun id => negb (bool_decide (id = u))) l = l.
Proof.
  induction l as [|x l IH]; intros Hn; [done|].
  apply not_elem_of_cons in Hn as [Hne Hn]. cbn.
  rewrite bool_decide_false by congruence. cbn. by rewrite IH.
Qed.

Lemma elem_of_toggled (u x : string) (l : list string) :
  x ∈ toggled u l ↔ (x ∈ l ∧ x ≠ u) ∨ (x = u ∧ u ∉ l).
Proof.
  unfold toggled.
  destruct (existsb _ l) eqn:E.
  - apply existsb_eq_elem_of in E. rewrite elem_of_filter_ne. tauto.
  - assert (u ∉ l) as Hn.
    { intros Hin. apply existsb_eq_elem_of in Hin. congruence. }
    rewrite elem_of_app, list_elem_of_singleton.
    destruct (decide (x = u)) as [->|]; tauto.
Qed.

Lemma toggled_twice_elem_of (u x : string) (l : list string) :
  x ∈ toggled u (toggled u l) ↔ x ∈ l.
Proof.
  rewrite !elem_of_toggled.
  destruct (decide (x = u)) as [->|Hne]; [|tauto].
  destruct (decide (u ∈ l)); tauto.
Qed.

Lemma toggled_twice_absent (u : string) (l : list string) :
  u ∉ l → toggled u (toggled u l) = l.
Proof.
  intros Hn. unfold toggled at 2.
  destruct (existsb _ l) eqn:E.
  { apply existsb_eq_elem_of in E. contradiction. }
  unfold toggled.
  assert (existsb (fun id => bool_decide (id = u)) (l ++ [u]) = true) as ->.
  { apply existsb_eq_elem_of, elem_of_app. right. by apply list_elem_of_singleton. }
  rewrite List.filter_app, filter_ne_absent by done. cbn.
  rewrite bool_decide_true by done. cbn. by rewrite app_nil_r.
Qed.



(** ** PUT /posts/like/:id *)

Section Like.
Context `{L : Libs}.

(** One run of the handler on an existing post, for a requester whose
    identifier is the text of an ObjectId. *)
Lemma like_existing (req : Request) (w : World) (u o : string)
    (p : Post.t) :
  requester req = Some u →
  castObjectId u = Some u →
  castObjectId (param_id req) = Some o →
  posts w !! o = Some p →
  let p' := Post.set_likedUsers (toggled u (Post.likedUsers p)) p in
  like req w =
    (mkResponse 200 (PostBody (o, p')),
     emit (updatePost_event (o, p')) (set_posts (<[o := p']> (posts w)) w)).
Proof.
  intros Hr Hu Ho Hp p'. open_requester Hr token Htok.
  unfold like. rewrite Htok. unfold findById. run.
  rewrite Hr, Ho, Hp. subst p'. unfold toggled.
  destruct (existsb _ (Post.likedUsers p)); [done|].
  by rewrite Hu.
Qed.


Lemma create_post_starts_unliked (req : Request) (w : World) :
  status (create_post req w).1 = 201%nat →
  ∃ p : Post.t,
    posts (create_post req w).2 !! fresh req = Some p ∧
    Post.likedUsers p = [].
Proof.
  unfold create_post.
  destruct (truthy (body req !! "token")) as [token|]; [|discriminate].
  destruct (truthy (body req !! "message")) as [message|]; [|discriminate].
  unfold findOne_userId. run.
  destruct (jwt_verify _ _ _) as [userId|]; cbn -[new_post]; [|discriminate].
  destruct (castObjectId userId) as [o|]; cbn -[new_post]; [|discriminate].
  destruct (List.find _ _) as [user|]; cbn -[new_post]; [|discriminate].
  match goal with
  | |- context [new_post ?a ?b ?c ?d] =>
      destruct (new_post a b c d) as [p|] eqn:Hnew; cbn; [|discriminate]
  end.
  intros _. exists p. split; [apply lookup_insert_eq|].
  unfold new_post, required in Hnew.
  repeat match type of Hnew with
         | context [mbind _ ?o] => destruct o; cbn in Hnew; [|discriminate]
         end.
  by injection Hnew as <-.
Qed.

(** C1: on an existing post, two like requests of the same authenticated
    user (whose identifier is, as login issues it, the text of an ObjectId)
    both succeed, the first flips the membership of that user in the
    liked-set, and the second brings the liked-set back to what it was
    (when the user was absent the stored post is back unchanged); nothing
    else of the post changes. *)
Theorem like_twice_restores_liked_set (req1 req2 : Request) (w : World)
    (u o : string) (p : Post.t) :
  requester req1 = Some u →
  requester req2 = Some u →
  castObjectId u = Some u →
  castObjectId (param_id req1) = Some o →
  castObjectId (param_id req2) = Some o →
  posts w !! o = Some p →
  ∃ p1 p2 : Post.t,
    status (like req1 w).1 = 200%nat ∧
    posts (like req1 w).2 !! o = Some p1 ∧
    status (like req2 (like req1 w).2).1 = 200%nat ∧
    posts (like req2 (like req1 w).2).2 !! o = Some p2 ∧
    (u ∈ likedSet p1 ↔ u ∉ likedSet p) ∧
    (∀ v, v ≠ u → v ∈ likedSet p1 ↔ v ∈ likedSet p) ∧
    likedSet p2 = likedSet p ∧
    Post.set_likedUsers (Post.likedUsers p) p2 = p ∧
    (u ∉ likedSet p → p2 = p).
Proof.
  intros Hr1 Hr2 Hu Ho1 Ho2 Hp.
  pose proof (like_existing req1 w u o p Hr1 Hu Ho1 Hp) as E1.
  cbv zeta in E1. rewrite E1. cbn [fst snd].
  set (p1 := Post.set_likedUsers (toggled u (Post.likedUsers p)) p).
  set (w1 := emit _ _).
  assert (posts w1 !! o = Some p1) as Hp1.
  { subst w1. cbn. apply lookup_insert_eq. }
  pose proof (like_existing req2 w1 u o p1 Hr2 Hu Ho2 Hp1) as E2.
  cbv zeta in E2. rewrite E2. cbn [fst snd].
  eexists p1, _. split; [done|]. split; [done|]. split; [done|].
  split; [cbn; apply lookup_insert_eq|].
  unfold likedSet. cbn [Post.likedUsers Post.set_likedUsers p1].
  repeat split.
  - rewrite !elem_of_list_to_set, elem_of_toggled. tauto.
  - rewrite !elem_of_list_to_set, elem_of_toggled in *. tauto.
  - rewrite !elem_of_list_to_set, elem_of_toggled in *. tauto.
  - rewrite !elem_of_list_to_set, elem_of_toggled. tauto.
  - apply set_eq. intros x.
    rewrite !elem_of_list_to_set. apply toggled_twice_elem_of.
  - by destruct p.
  - rewrite elem_of_list_to_set. intros Hn.
    rewrite toggled_twice_absent by done. by destruct p.
Qed.
End Like.

Lemma like_twice_restores_liked_set_witness :
  ∃ p1 p2 : Post.t,
    let req := Sample.request (Sample.bearer Sample.bob) Sample.post1 [] in
    let like := like (L := Reference.libs) in
    status (like req Sample.world).1 = 200%nat ∧
    posts (like req Sample.world).2 !! Sample.post1 = Some p1 ∧
    status (like req (like req Sample.world).2).1 = 200%nat ∧
    posts (like req (like req Sample.world).2).2 !! Sample.post1 = Some p2 ∧
    (Sample.bob ∈ likedSet p1 ↔ Sample.bob ∉ likedSet Sample.alice_post) ∧
    (∀ v, v ≠ Sample.bob →
          v ∈ likedSet p1 ↔ v ∈ likedSet Sample.alice_post) ∧
    likedSet p2 = likedSet Sample.alice_post ∧
    Post.set_likedUsers (Post.likedUsers Sample.alice_post) p2
      = Sample.alice_post ∧
    (Sample.bob ∉ likedSet Sample.alice_post → p2 = Sample.alice_post).
Proof.
  apply (like_twice_restores_liked_set (L := Reference.libs)
           (Sample.request (Sample.bearer Sample.bob) Sample.post1 [])
           (Sample.request (Sample.bearer Sample.bob) Sample.post1 [])
           Sample.world Sample.bob Sample.post1 Sample.alice_post);
    reflexivity.
Defined.

(** ** DELETE /posts/:id *)

Section Delete.
Context `{L : Libs}.

(** C2: on an existing post and for an authenticated requester, the
    delete handler succeeds exactly when the requester is the author of
    the post: it then removes the post and broadcasts [deletePost] with
    the identifier of the post and nothing else; for any other requester
    it answers 403 and the world, the post included, is unchanged. *)
Theorem delete_post_iff_author (req : Request) (w : World) (u o : string)
    (p : Post.t) :
  requester req = Some u →
  castObjectId (param_id req) = Some o →
  posts w !! o = Some p →
  (status (delete_post req w).1 = 200%nat ↔ u = Post.userId p) ∧
  (u = Post.userId p →
     delete_post req w =
       (mkResponse 200 (Message "Post deleted successfully"),
        emit (deletePost_event o) (set_posts (delete o (posts w)) w)) ∧
     posts (delete_post req w).2 !! o = None ∧
     emitted (delete_post req w).2 = emitted w ++ [deletePost_event o]) ∧
  (u ≠ Post.userId p →
     delete_post req w =
       (mkResponse 403 (Message "You cannot delete this post"), w) ∧
     posts (delete_post req w).2 !! o = Some p).
Proof.
  intros Hr Ho Hp. open_requester Hr token Htok.
  unfold delete_post. rewrite Htok. unfold findById. run.
  rewrite Hr, Ho, Hp.
  destruct (decide (Post.userId p = u)) as [E|N].
  - rewrite bool_decide_true by done. cbn.
    split; [done|]. split; [|congruence].
    intros _. split; [done|]. split; [apply lookup_delete_eq|done].
  - rewrite bool_decide_false by done. cbn.
    split; [split; [discriminate|congruence]|].
    split; [congruence|]. done.
Qed.
End Delete.

Lemma delete_post_iff_author_witness :
  let req := Sample.request (Sample.bearer Sample.alice) Sample.post1 [] in
  delete_post (L := Reference.libs) req Sample.world =
    (mkResponse 200 (Message "Post deleted successfully"),
     emit (deletePost_event Sample.post1)
       (set_posts (delete Sample.post1 (posts Sample.world)) Sample.world)).
Proof.
  refine (proj1 (proj1 (proj2 (delete_post_iff_author (L := Reference.libs)
            (Sample.request (Sample.bearer Sample.alice) Sample.post1 [])
            Sample.world Sample.alice Sample.post1 Sample.alice_post
            _ _ _)) _)); reflexivity.
Defined.

(** ** POST /eventsdata/:id/rsvp *)

Lemma includes_elem_of (u : string) (l : list (option ObjectId)) :
  includes (Some u) l = true ↔ Some u ∈ l.
Proof.
  unfold includes, loose_eq. rewrite existsb_exists. split.
  - intros (x & Hin & Hx). apply bool_decide_eq_true in Hx. subst x.
    by apply list_elem_of_In.
  - intros Hin. exists (Some u). split; [by apply list_elem_of_In|].
    by apply bool_decide_eq_true.
Qed.

Section Rsvp.
Context `{L : Libs}.

(** One run of the handler on an existing event, for a user reference given
    as the text of an ObjectId. *)
Lemma rsvp_existing (req : Request) (w : World) (u o : string)
    (e : Event.t) :
  body req !! "userId" = Some u →
  castObjectId u = Some u →
  castObjectId (param_id req) = Some o →
  events w !! o = Some e →
  rsvp req w =
    if includes (Some u) (Event.bookeduser e)
    then (mkResponse 400 (SuccessMessage false "User already RSVP'd"), w)
    else
      let e' := Event.set_bookeduser (Event.bookeduser e ++ [Some u]) e in
      (mkResponse 200 (RsvpBody true "RSVP successful" (o, e')),
       set_events (<[o := e']> (events w)) w).
Proof.
  intros Hb Hu Ho He. unfold rsvp, findById. run.
  rewrite Ho, He, Hb.
  destruct (includes _ _); [done|].
  unfold push_bookeduser. run. by rewrite Hu.
Qed.

(** X30: on an existing event, an RSVP for a user reference given in the
    text that its ObjectId prints as, and that is already among the
    attendees, answers 400 "User already RSVP'd" and changes nothing;
    otherwise it appends that one reference.  So a second RSVP of
    the same user is refused and leaves the attendees as the first RSVP
    left them, the user is among them, and attendees that were pairwise
    distinct stay pairwise distinct. *)
Theorem rsvp_guarded_idempotent (req1 req2 : Request) (w : World)
    (u o : string) (e : Event.t) :
  body req1 !! "userId" = Some u →
  body req2 !! "userId" = Some u →
  castObjectId u = Some u →
  castObjectId (param_id req1) = Some o →
  castObjectId (param_id req2) = Some o →
  events w !! o = Some e →
  (Some u ∈ Event.bookeduser e →
     rsvp req1 w =
       (mkResponse 400 (SuccessMessage false "User already RSVP'd"), w)) ∧
  (Some u ∉ Event.bookeduser e →
     let e' := Event.set_bookeduser (Event.bookeduser e ++ [Some u]) e in
     rsvp req1 w =
       (mkResponse 200 (RsvpBody true "RSVP successful" (o, e')),
        set_events (<[o := e']> (events w)) w)) ∧
  rsvp req2 (rsvp req1 w).2 =
    (mkResponse 400 (SuccessMessage false "User already RSVP'd"),
     (rsvp req1 w).2) ∧
  ∃ e1 : Event.t,
    events (rsvp req1 w).2 !! o = Some e1 ∧
    Some u ∈ Event.bookeduser e1 ∧
    (NoDup (Event.bookeduser e) → NoDup (Event.bookeduser e1)).
Proof.
  intros Hb1 Hb2 Hu Ho1 Ho2 He.
  pose proof (rsvp_existing req1 w u o e Hb1 Hu Ho1 He) as E1.
  destruct (includes (Some u) (Event.bookeduser e)) eqn:Hin.
  - apply includes_elem_of in Hin as Hin'.
    split; [done|]. split; [done|]. rewrite E1. cbn [snd].
    split.
    + rewrite (rsvp_existing req2 w u o e Hb2 Hu Ho2 He). by rewrite Hin.
    + by exists e.
  - assert (Some u ∉ Event.bookeduser e) as Hn.
    { intros Hin'. apply includes_elem_of in Hin'. congruence. }
    split; [done|]. split; [done|]. rewrite E1. cbn [snd].
    set (e' := Event.set_bookeduser (Event.bookeduser e ++ [Some u]) e).
    set (w' := set_events _ w).
    assert (events w' !! o = Some e') as He'.
    { subst w'. cbn. apply lookup_insert_eq. }
    assert (Some u ∈ Event.bookeduser e') as Hin'.
    { subst e'. cbn. apply elem_of_app. right. by apply list_elem_of_singleton. }
    split.
    + rewrite (rsvp_existing req2 w' u o e' Hb2 Hu Ho2 He').
      apply includes_elem_of in Hin'. by rewrite Hin'.
    + exists e'. split; [done|]. split; [done|].
      intros Hnd. subst e'. cbn. apply NoDup_app. split; [done|].
      split; [|apply NoDup_singleton].
      intros x Hx Hx'. apply list_elem_of_singleton in Hx'. by subst x.
Qed.
(** One run of the handler on an existing event, for a user reference given
    in any text that casts to an ObjectId: the guard looks for the text as
    it was sent, the array stores what the text casts to. *)
Lemma rsvp_existing_cast (req : Request) (w : World) (u o' o : string)
    (e : Event.t) :
  body req !! "userId" = Some u →
  castObjectId u = Some o' →
  castObjectId (param_id req) = Some o →
  events w !! o = Some e →
  rsvp req w =
    if includes (Some u) (Event.bookeduser e)
    then (mkResponse 400 (SuccessMessage false "User already RSVP'd"), w)
    else
      let e' := Event.set_bookeduser (Event.bookeduser e ++ [Some o']) e in
      (mkResponse 200 (RsvpBody true "RSVP successful" (o, e')),
       set_events (<[o := e']> (events w)) w).
Proof.
  intros Hb Hu Ho He. unfold rsvp, findById. run.
  rewrite Ho, He, Hb.
  destruct (includes _ _); [done|].
  unfold push_bookeduser. run. by rewrite Hu.
Qed.

(** C3: the guard of the RSVP handler misses a user reference that is sent
    in a text other than the one its ObjectId prints as (upper-case
    hexadecimal digits, say): the text sent is not found among the
    attendees, so both of two such requests are answered 200 and the
    reference is stored twice. *)
Theorem rsvp_other_text_stored_twice (req1 req2 : Request) (w : World)
    (u o' o : string) (e : Event.t) :
  body req1 !! "userId" = Some u →
  body req2 !! "userId" = Some u →
  castObjectId u = Some o' →
  o' ≠ u →
  castObjectId (param_id req1) = Some o →
  castObjectId (param_id req2) = Some o →
  events w !! o = Some e →
  Some u ∉ Event.bookeduser e →
  status (rsvp req1 w).1 = 200%nat ∧
  status (rsvp req2 (rsvp req1 w).2).1 = 200%nat ∧
  ∃ e2 : Event.t,
    events (rsvp req2 (rsvp req1 w).2).2 !! o = Some e2 ∧
    Event.bookeduser e2 = Event.bookeduser e ++ [Some o'; Some o'] ∧
    ¬ NoDup (Event.bookeduser e2).
Proof.
  intros Hb1 Hb2 Hu Hne Ho1 Ho2 He Hn.
  assert (includes (Some u) (Event.bookeduser e) = false) as Hin.
  { destruct (includes _ _) eqn:E; [|done].
    apply includes_elem_of in E. contradiction. }
  rewrite (rsvp_existing_cast req1 w u o' o e Hb1 Hu Ho1 He), Hin.
  cbv zeta. cbn [fst snd status].
  set (e1 := Event.set_bookeduser (Event.bookeduser e ++ [Some o']) e).
  set (w1 := set_events _ w).
  assert (events w1 !! o = Some e1) as He1.
  { subst w1. cbn. apply lookup_insert_eq. }
  assert (includes (Some u) (Event.bookeduser e1) = false) as Hin1.
  { apply not_true_is_false. intros E.
    apply includes_elem_of in E. subst e1. cbn in E.
    apply elem_of_app in E as [E|E]; [contradiction|].
    apply list_elem_of_singleton in E. congruence. }
  rewrite (rsvp_existing_cast req2 w1 u o' o e1 Hb2 Hu Ho2 He1), Hin1.
  cbv zeta. cbn [fst snd status].
  split; [done|]. split; [done|]. eexists. split.
  { cbn. apply lookup_insert_eq. }
  cbn. split; [by rewrite <- app_assoc|].
  rewrite <- app_assoc. cbn. intros Hnd.
  apply NoDup_app in Hnd as (_ & _ & Hnd).
  apply NoDup_cons in Hnd as [Hnd _]. apply Hnd, list_elem_of_here.
Qed.
End Rsvp.

Lemma rsvp_guarded_idempotent_witness :
  let req :=
    Sample.request None Sample.event1 [("userId", Sample.bob)] in
  let rsvp := rsvp (L := Reference.libs) in
  rsvp req (rsvp req Sample.world).2 =
    (mkResponse 400 (SuccessMessage false "User already RSVP'd"),
     (rsvp req Sample.world).2).
Proof.
  refine (proj1 (proj2 (proj2 (rsvp_guarded_idempotent (L := Reference.libs)
            (Sample.request None Sample.event1 [("userId", Sample.bob)])
            (Sample.request None Sample.event1 [("userId", Sample.bob)])
            Sample.world Sample.bob Sample.event1 Sample.jam
            _ _ _ _ _ _)))); reflexivity.
Defined.

(** ** The instrument handlers *)

Section Instruments.
Context `{L : Libs}.

(** C4 (as amended): on an existing instrument and for an authenticated
    requester, renting is refused with "You cannot rent your own
    instrument." when the requester owns the instrument, else with
    "Instrument is not available for rent." when its status is not
    "available"; either refusal leaves the world unchanged.  Otherwise,
    when the dates of the request body cast to dates, the status becomes
    "not available", the renter becomes the requester, and the two date
    paths take what the body gave: a date the body omits is left unset.
    When a date of the body does not cast, the answer is 500 and the world
    is unchanged. *)
Theorem rent_checks_then_assigns (req : Request) (w : World) (u o : string)
    (i : Instrument.t) :
  requester req = Some u →
  castObjectId (param_id req) = Some o →
  instruments w !! o = Some i →
  (Instrument.userId i = u →
     rent req w =
       (mkResponse 400 (Message "You cannot rent your own instrument."), w)) ∧
  (Instrument.userId i ≠ u → Instrument.status i ≠ "available" →
     rent req w =
       (mkResponse 400 (Message "Instrument is not available for rent."),
        w)) ∧
  (Instrument.userId i ≠ u → Instrument.status i = "available" →
     ∀ rd erd : option Date,
       cast_date (body req !! "rentedDate") = Some rd →
       cast_date (body req !! "expectedReturnDate") = Some erd →
       let i' := Instrument.set_rental "not available" rd erd (Some u) i in
       rent req w =
         (mkResponse 200
            (InstrumentBody "Instrument rented successfully!" (o, i')),
          set_instruments (<[o := i']> (instruments w)) w) ∧
       (body req !! "rentedDate" = None → Instrument.rentedDate i' = None) ∧
       (body req !! "expectedReturnDate" = None →
          Instrument.expectedReturnDate i' = None)) ∧
  (Instrument.userId i ≠ u → Instrument.status i = "available" →
     cast_date (body req !! "rentedDate") = None ∨
     cast_date (body req !! "expectedReturnDate") = None →
     rent req w =
       (mkResponse 500 (ErrorMessage "Unable to rent the instrument."), w)).
Proof.
  intros Hr Ho Hi. open_requester Hr token Htok.
  unfold rent, findById. run. rewrite Htok, Hr, Ho, Hi.
  split; [|split; [|split]].
  - intros Hown. by rewrite bool_decide_true.
  - intros Hown Hst. rewrite bool_decide_false by done.
    by rewrite (bool_decide_false _ Hst).
  - intros Hown Hst rd erd Hrd Herd.
    rewrite bool_decide_false by done. rewrite (bool_decide_true _ Hst).
    cbn [negb]. unfold save_rental. run. rewrite Hrd, Herd.
    split; [done|]. cbn. split.
    + intros E. rewrite E in Hrd. cbn in Hrd. congruence.
    + intros E. rewrite E in Herd. cbn in Herd. congruence.
  - intros Hown Hst Hbad.
    rewrite bool_decide_false by done. rewrite (bool_decide_true _ Hst).
    cbn [negb]. unfold save_rental. run.
    destruct (cast_date (body req !! "rentedDate")) as [rd|]; cbn;
      [|done].
    destruct Hbad as [Hbad|Hbad]; [discriminate|]. by rewrite Hbad.
Qed.

(** C5: on an existing instrument and for an authenticated requester,
    returning is refused with "You are not the renter of this instrument."
    when the requester is not the current renter, and the world, the
    status of the instrument included, is unchanged; for the current
    renter it succeeds, the status is "available" again, both dates are
    unset and the renter is the empty string. *)
Theorem return_requires_renter (req : Request) (w : World) (u o : string)
    (i : Instrument.t) :
  requester req = Some u →
  castObjectId (param_id req) = Some o →
  instruments w !! o = Some i →
  (Instrument.renterId i ≠ Some u →
     return_instrument req w =
       (mkResponse 400
          (Message "You are not the renter of this instrument."), w)) ∧
  (Instrument.renterId i = Some u →
     let i' := Instrument.set_rental "available" None None (Some "") i in
     return_instrument req w =
       (mkResponse 200
          (InstrumentBody
             "Instrument returned and status updated to available!" (o, i')),
        set_instruments (<[o := i']> (instruments w)) w) ∧
     instruments (return_instrument req w).2 !! o = Some i' ∧
     Instrument.status i' = "available" ∧
     Instrument.rentedDate i' = None ∧
     Instrument.expectedReturnDate i' = None ∧
     Instrument.renterId i' = Some "").
Proof.
  intros Hr Ho Hi. open_requester Hr token Htok.
  unfold return_instrument, findById. run. rewrite Htok, Hr, Ho, Hi.
  split.
  - intros Hn. by rewrite bool_decide_false.
  - intros Hrenter. rewrite bool_decide_true by done. cbn.
    split; [done|]. split; [apply lookup_insert_eq|done].
Qed.

(** C8 (as amended): an instrument that POST /addnewinstrument persists is
    stored under the fresh identifier with the status of the request body
    when the body has one, and with "available" only when it has none. *)
Theorem addnewinstrument_status_from_body (req : Request) (w : World) :
  status (addnewinstrument req w).1 = 201%nat →
  ∃ i : Instrument.t,
    instruments w !! fresh req = None ∧
    instruments (addnewinstrument req w).2 !! fresh req = Some i ∧
    Instrument.status i = default "available" (body req !! "status") ∧
    (body req !! "status" = None → Instrument.status i = "available").
Proof.
  unfold addnewinstrument, insert_instrument. run.
  destruct (new_instrument _ _ _ _ _ _ _ _ _ _ _ _ _) as [i|] eqn:Hnew;
    [|discriminate].
  destruct (instruments w !! fresh req) eqn:Hfresh; [discriminate|].
  intros _. exists i. split; [done|]. split; [apply lookup_insert_eq|].
  assert (Instrument.status i = default "available" (body req !! "status"))
    as Hst.
  { unfold new_instrument in Hnew.
    repeat match type of Hnew with
           | context [mbind _ ?o] => destruct o; cbn in Hnew; [|discriminate]
           end.
    by injection Hnew as <-. }
  split; [done|]. intros E. by rewrite Hst, E.
Qed.
End Instruments.

Lemma rent_checks_then_assigns_witness :
  let req :=
    Sample.request (Sample.bearer Sample.bob) Sample.guitar1
      [("rentedDate", "1700000000000");
       ("expectedReturnDate", "1700600000000")] in
  rent (L := Reference.libs) req Sample.world =
    (mkResponse 200
       (InstrumentBody "Instrument rented successfully!"
          (Sample.guitar1, Sample.rented_guitar)),
     Sample.rented_world).
Proof.
  refine (proj1 (proj1 (proj2 (proj2
            (rent_checks_then_assigns (L := Reference.libs)
               (Sample.request (Sample.bearer Sample.bob) Sample.guitar1
                  [("rentedDate", "1700000000000");
                   ("expectedReturnDate", "1700600000000")])
               Sample.world Sample.bob Sample.guitar1 Sample.guitar _ _ _)))
            _ _ (Some 1700000000000%Z) (Some 1700600000000%Z) _ _));
    first [reflexivity | discriminate].
Defined.

(** A rent request without dates succeeds and leaves both date paths of the
    rented instrument unset. *)
Lemma rent_without_dates_leaves_dates_unset :
  let r :=
    rent (L := Reference.libs)
      (Sample.request (Sample.bearer Sample.bob) Sample.guitar1 [])
      Sample.world in
  status r.1 = 200%nat ∧
  ∃ i' : Instrument.t,
    instruments r.2 !! Sample.guitar1 = Some i' ∧
    Instrument.status i' = "not available" ∧
    Instrument.renterId i' = Some Sample.bob ∧
    Instrument.rentedDate i' = None ∧
    Instrument.expectedReturnDate i' = None.
Proof.
  split; [reflexivity|].
  exists (Instrument.set_rental "not available" None None (Some Sample.bob)
            Sample.guitar).
  repeat split; reflexivity.
Qed.

Lemma return_requires_renter_witness :
  let req := Sample.request (Sample.bearer Sample.bob) Sample.guitar1 [] in
  let i' :=
    Instrument.set_rental "available" None None (Some "")
      Sample.rented_guitar in
  instruments (return_instrument (L := Reference.libs) req
                 Sample.rented_world).2 !! Sample.guitar1 = Some i' ∧
  Instrument.status i' = "available" ∧
  Instrument.rentedDate i' = None ∧
  Instrument.expectedReturnDate i' = None ∧
  Instrument.renterId i' = Some "".
Proof.
  refine (proj2 (proj2 (return_requires_renter (L := Reference.libs)
            (Sample.request (Sample.bearer Sample.bob) Sample.guitar1 [])
            Sample.rented_world Sample.bob Sample.guitar1
            Sample.rented_guitar _ _ _) _)); reflexivity.
Defined.

Lemma addnewinstrument_status_from_body_witness :
  let req :=
    Sample.request None ""
      [("instrumentName", "Drum"); ("category", "Percussion");
       ("userId", Sample.alice); ("userName", "Alice Ames")] in
  ∃ i : Instrument.t,
    instruments Sample.world !! fresh req = None ∧
    instruments (addnewinstrument (L := Reference.libs) req Sample.world).2
      !! fresh req = Some i ∧
    Instrument.status i = default "available" (body req !! "status") ∧
    (body req !! "status" = None → Instrument.status i = "available").
Proof.
  apply (addnewinstrument_status_from_body (L := Reference.libs)
           (Sample.request None ""
              [("instrumentName", "Drum"); ("category", "Percussion");
               ("userId", Sample.alice); ("userName", "Alice Ames")])
           Sample.world).
  reflexivity.
Defined.

(** A listing created with a status in its body is persisted with that
    status, not with "available". *)
Lemma addnewinstrument_keeps_given_status :
  let r :=
    addnewinstrument (L := Reference.libs)
      (Sample.request None ""
         [("instrumentName", "Drum"); ("category", "Percussion");
          ("userId", Sample.alice); ("userName", "Alice Ames");
          ("status", "not available")])
      Sample.world in
  r.1 = mkResponse 201 (Message "Instrument added successfully!") ∧
  ∃ i : Instrument.t,
    instruments r.2 !! "ffffffffffffffffffffffff" = Some i ∧
    Instrument.status i = "not available" ∧
    Instrument.status i ≠ "available".
Proof.
  split; [reflexivity|].
  eexists. split; [reflexivity|]. split; [reflexivity|]. discriminate.
Qed.

(** ** Requests without a valid token *)

Section Tokens.
Context `{L : Libs}.

(** C6 (as amended): when the request carries no bearer token, or one that
    fails verification (malformed, expired, wrongly signed), each of the
    token-guarded handlers leaves the world unchanged.  The answer is 401
    "Unauthorized" when the token is missing, and 500 when a token is
    present and fails verification. *)
Theorem unverified_token_changes_nothing (req : Request) (w : World)
    (h : Request → World → Response * World) :
  requester req = None →
  h ∈ token_guarded →
  (h req w).2 = w ∧
  (truthy (bearer_token req) = None →
     (h req w).1 = mkResponse 401 (Message "Unauthorized")) ∧
  (∀ token, truthy (bearer_token req) = Some token →
     status (h req w).1 = 500%nat ∧
     json (h req w).1 ∈
       [Message "Server error";
        ErrorMessage "Unable to rent the instrument.";
        ErrorMessage "Unable to return the instrument."]).
Proof.
  intros Hr Hh. unfold requester in Hr. unfold token_guarded in Hh.
  repeat (apply elem_of_cons in Hh as [->|Hh]);
    [ unfold get_user | unfold update_user | unfold like
    | unfold delete_post | unfold rent | unfold return_instrument
    | by apply elem_of_nil in Hh ];
    run;
    (destruct (truthy (bearer_token req)) as [token|];
     [ rewrite Hr; cbn; split; [done|]; split; [done|];
       intros ? _; split; [done|]; set_solver
     | cbn; split; [done|]; split; [done|]; intros ? [=] ]).
Qed.
End Tokens.

Lemma unverified_token_changes_nothing_witness :
  let req := Sample.request None Sample.post1 [] in
  (like (L := Reference.libs) req Sample.world).2 = Sample.world ∧
  (like (L := Reference.libs) req Sample.world).1
    = mkResponse 401 (Message "Unauthorized").
Proof.
  pose proof (unverified_token_changes_nothing (L := Reference.libs)
                (Sample.request None Sample.post1 []) Sample.world
                (like (L := Reference.libs)) eq_refl
                (list_elem_of_further _ _ _
                   (list_elem_of_further _ _ _ (list_elem_of_here _ _))))
    as (Hw & Hmissing & _).
  exact (conj Hw (Hmissing eq_refl)).
Defined.

(** A like request whose token fails verification is answered 500 "Server
    error", not 401 "Unauthorized". *)
Lemma like_with_malformed_token_is_server_error :
  like (L := Reference.libs)
    (Sample.request (Some "Bearer not-a-token") Sample.post1 [])
    Sample.world
  = (mkResponse 500 (Message "Server error"), Sample.world).
Proof. reflexivity. Qed.

(** ** Registration and login *)

Lemma truthy_Some (v : option string) (s : string) :
  truthy v = Some s → v = Some s ∧ s ≠ "".
Proof. destruct v as [[|c r]|]; cbn; intros [=]; subst; done. Qed.

Lemma find_app_None {A} (f : A → bool) (l : list A) (x : A) :
  List.find f l = None → List.find f (l ++ [x]) = List.find f [x].
Proof.
  induction l as [|y l IH]; cbn; [done|].
  destruct (f y); [discriminate|]. exact IH.
Qed.

Section Accounts.
Context `{L : Libs}.

Lemma new_user_fields (id : ObjectId)
    (role firstName lastName email password phone address country state
       description : option string) (u : User.t) :
  new_user id role firstName lastName email password phone address country
    state description = Some u →
  User.userId u = id ∧ role = Some (User.role u) ∧
  email = Some (User.email u) ∧ password = Some (User.password u) ∧
  User.description u = default "" description.
Proof.
  unfold new_user, required. intros H.
  repeat match type of H with
         | context [mbind _ (truthy ?v)] =>
             let s := fresh "s" in let E := fresh "E" in
             destruct (truthy v) as [s|] eqn:E; cbn in H;
             [apply truthy_Some in E as [-> _]|discriminate]
         end.
  by injection H as <-.
Qed.

(** What a successful registration has done. *)
Lemma register_created (reg : Request) (w : World) :
  status (register reg w).1 = 201%nat →
  ∃ (u : User.t) (p : string),
    register reg w =
      (mkResponse 201 (Message "User registered successfully"),
       set_users (users w ++ [u]) w) ∧
    findOne_email (body reg !! "email") (users w) = None ∧
    User.userId u = fresh reg ∧
    body reg !! "role" = Some (User.role u) ∧
    body reg !! "email" = Some (User.email u) ∧
    body reg !! "password" = Some p ∧
    User.password u = bcrypt_hash (salt reg) p ∧
    User.description u =
      (if bool_decide (User.role u = "Artist")
       then default "" (body reg !! "description") else "").
Proof.
  unfold register, insert_user. run.
  destruct (findOne_email _ _) eqn:Hfind; [discriminate|].
  destruct (body reg !! "password") as [p|] eqn:Hp; cbn; [|discriminate].
  destruct (new_user _ _ _ _ _ _ _ _ _ _ _) as [u|] eqn:Hnew; [|discriminate].
  destruct (existsb _ _); [discriminate|]. intros _.
  apply new_user_fields in Hnew as (Hid & Hrole & Hemail & Hpw & Hdesc).
  exists u, p. rewrite Hrole in Hdesc. injection Hpw as Hpw.
  repeat split; try done.
  rewrite Hdesc. case_bool_decide as E1; case_bool_decide as E2; try done.
  - by injection E1 as E1.
  - by rewrite E2 in E1.
Qed.

(** C7 (as amended): a login whose email is unknown, or whose password
    does not match the stored hash, is answered 400 "Invalid credentials"
    (not 401); a login for a known email whose body has no password is
    answered 500 "Server error"; none of these changes anything.
    Otherwise the answer carries the token signed for the identifier of
    that user.  So after a registration that succeeded, a login with the
    same email and password yields the token of the newly registered
    user. *)
Theorem login_checks_credentials (req reg : Request) (w : World) :
  (findOne_email (body req !! "email") (users w) = None →
     login req w = (mkResponse 400 (Message "Invalid credentials"), w)) ∧
  (∀ user : User.t,
     findOne_email (body req !! "email") (users w) = Some user →
     (body req !! "password" = None →
        login req w = (mkResponse 500 (Message "Server error"), w)) ∧
     (∀ p : string,
        body req !! "password" = Some p →
        (bcrypt_compare p (User.password user) = false →
           login req w =
             (mkResponse 400 (Message "Invalid credentials"), w)) ∧
        (bcrypt_compare p (User.password user) = true →
           login req w =
             (mkResponse 200
                (TokenBody
                   (jwt_sign (now req) SECRET_KEY (User.userId user))),
              w)))) ∧
  (∀ e p : string,
     body req !! "email" = Some e →
     body req !! "password" = Some p →
     body reg !! "email" = Some e →
     body reg !! "password" = Some p →
     status (register reg w).1 = 201%nat →
     bcrypt_compare p (bcrypt_hash (salt reg) p) = true →
     login req (register reg w).2 =
       (mkResponse 200
          (TokenBody (jwt_sign (now req) SECRET_KEY (fresh reg))),
        (register reg w).2)).
Proof.
  assert (∀ w' : World,
            login req w' =
              match findOne_email (body req !! "email") (users w') with
              | None => (mkResponse 400 (Message "Invalid credentials"), w')
              | Some user =>
                  match body req !! "password" with
                  | None => (mkResponse 500 (Message "Server error"), w')
                  | Some p =>
                      if bcrypt_compare p (User.password user)
                      then (mkResponse 200
                              (TokenBody
                                 (jwt_sign (now req) SECRET_KEY
                                    (User.userId user))), w')
                      else (mkResponse 400 (Message "Invalid credentials"),
                            w')
                  end
              end) as Hlogin.
  { intros w'. unfold login. run.
    destruct (findOne_email _ _); [|done].
    destruct (body req !! "password"); cbn; [|done].
    by destruct (bcrypt_compare _ _). }
  split; [|split].
  - intros Hnone. by rewrite Hlogin, Hnone.
  - intros user Hsome. rewrite Hlogin, Hsome. split.
    + by intros ->.
    + intros p ->. split; intros ->; done.
  - intros e p He Hp Hre Hrp H201 Hlaw.
    destruct (register_created reg w H201)
      as (u & p' & Hreg & Hnone & Hid & _ & Hemail & Hpw & Hhash & _).
    rewrite Hreg. cbn [snd]. rewrite Hlogin. cbn [users set_users].
    rewrite Hre in Hemail, Hnone. injection Hemail as ->.
    rewrite Hrp in Hpw. injection Hpw as <-.
    rewrite He, Hp.
    cbn [findOne_email] in *. rewrite (find_app_None _ _ _ Hnone). cbn.
    rewrite bool_decide_true by done. by rewrite Hhash, Hlaw, Hid.
Qed.
End Accounts.

Lemma login_checks_credentials_witness :
  let reg :=
    Sample.request None ""
      [("role", "Musician"); ("firstName", "Dan"); ("lastName", "Dow");
       ("email", "dan@x.com"); ("password", "pw"); ("phone", "1");
       ("address", "2"); ("country", "3"); ("state", "4")] in
  let req :=
    Sample.request None "" [("email", "dan@x.com"); ("password", "pw")] in
  login (L := Reference.libs) req
    (register (L := Reference.libs) reg Sample.world).2 =
    (mkResponse 200
       (TokenBody
          (jwt_sign (Libs := Reference.libs) (now req) SECRET_KEY (fresh reg))),
     (register (L := Reference.libs) reg Sample.world).2).
Proof.
  refine (proj2 (proj2 (login_checks_credentials (L := Reference.libs)
            (Sample.request None ""
               [("email", "dan@x.com"); ("password", "pw")])
            (Sample.request None ""
               [("role", "Musician"); ("firstName", "Dan");
                ("lastName", "Dow"); ("email", "dan@x.com");
                ("password", "pw"); ("phone", "1"); ("address", "2");
                ("country", "3"); ("state", "4")])
            Sample.world)) "dan@x.com" "pw" _ _ _ _ _ _); reflexivity.
Defined.

(** A login with a wrong password is answered 400, not 401, and a login
    for a known email without a password is answered 500. *)
Lemma login_refusals_are_400_and_500 :
  login (L := Reference.libs)
    (Sample.request None ""
       [("email", "carol@x.com"); ("password", "wrong")])
    Sample.world =
    (mkResponse 400 (Message "Invalid credentials"), Sample.world) ∧
  login (L := Reference.libs)
    (Sample.request None "" [("email", "carol@x.com")]) Sample.world =
    (mkResponse 500 (Message "Server error"), Sample.world).
Proof. split; reflexivity. Qed.

(** ** The description of a user *)

Section Descriptions.
Context `{L : Libs}.

Lemma register_unchanged_unless_created (reg : Request) (w : World) :
  status (register reg w).1 ≠ 201%nat → (register reg w).2 = w.
Proof.
  unfold register, insert_user. run.
  destruct (findOne_email _ _); [done|].
  destruct (body reg !! "password"); cbn; [|done].
  destruct (new_user _ _ _ _ _ _ _ _ _ _ _); [|done].
  destruct (existsb _ _); [done|]. cbn. done.
Qed.

(** X6: POST /register keeps the description empty for every role but
    Artist. *)
Lemma register_description_only_for_artist (reg : Request) (w : World) :
  Forall description_only_for_artist (users w) →
  Forall description_only_for_artist (users (register reg w).2).
Proof.
  intros Hall.
  destruct (decide (status (register reg w).1 = 201%nat)) as [H201|Hn].
  - destruct (register_created reg w H201)
      as (u & p & Hreg & _ & _ & _ & _ & _ & _ & Hdesc).
    rewrite Hreg. cbn. apply Forall_app. split; [done|].
    apply Forall_singleton. unfold description_only_for_artist.
    rewrite Hdesc. by case_bool_decide.
  - by rewrite register_unchanged_unless_created.
Qed.

(** PUT /user writes the description of the body whatever the role of the
    user, and leaves the role as it was. *)
Lemma update_user_writes_description (req : Request) (w : World)
    (u o d : string) (before after : list User.t) (user : User.t) :
  requester req = Some u →
  castObjectId u = Some o →
  split_first (fun v => bool_decide (User.userId v = o)) (users w)
    = Some (before, user, after) →
  existsb (fun v => bool_decide (User.email v = User.email user))
    (before ++ after) = false →
  body req !! "email" = None →
  body req !! "description" = Some d →
  ∃ user' : User.t,
    update_user req w =
      (mkResponse 200
         (ProfileBody "Profile updated" (User.select_minus_password user')),
       set_users (before ++ user' :: after) w) ∧
    User.role user' = User.role user ∧
    User.description user' = d.
Proof.
  intros Hr Hu Hsplit Huniq Hemail Hdesc. open_requester Hr token Htok.
  unfold update_user, findOneAndUpdate. run.
  rewrite Htok, Hr, Hu, Hsplit, Hemail, Hdesc. cbn.
  rewrite Huniq. by eexists.
Qed.
End Descriptions.

(** C9: PUT /user writes the description of the request body whatever the
    role of the user: here a user of role "User", whose description was
    empty, ends with a non-empty description. *)
Theorem update_user_sets_description_of_non_artist :
  let req :=
    Sample.request (Sample.bearer (User.userId Sample.carol)) ""
      [("description", "I play drums")] in
  let r := update_user (L := Reference.libs) req Sample.world in
  Forall description_only_for_artist (users Sample.world) ∧
  status r.1 = 200%nat ∧
  ∃ u : User.t,
    users r.2 = [u] ∧
    User.role u = "User" ∧
    User.description u = "I play drums" ∧
    ¬ description_only_for_artist u.
Proof.
  split.
  { apply Forall_singleton. by intros H. }
  split; [reflexivity|].
  eexists. split; [reflexivity|]. split; [reflexivity|].
  split; [reflexivity|].
  intros H. assert ("User" = "Artist") as E by (apply H; discriminate).
  discriminate E.
Qed.

(** ** Listing an empty collection *)

Section Lists.
Context `{L : Libs}.

(** C10: with no event stored GET /eventsdata answers 404 "No events
    found", and with no user stored GET /usernames answers 404 "No users
    found"; neither returns an empty list, and a 200 answer of either
    carries a list with at least one element. *)
Theorem empty_collection_is_not_found (req : Request) (w : World) :
  (events w = ∅ →
     eventsdata req w =
       (mkResponse 404 (SuccessMessage false "No events found"), w)) ∧
  (users w = [] →
     usernames req w = (mkResponse 404 (Message "No users found"), w)) ∧
  (status (eventsdata req w).1 = 200%nat →
     ∃ l : list (Doc Event.t),
       json (eventsdata req w).1 = EventsBody true l ∧ l ≠ [] ∧
       l = map_to_list (events w)) ∧
  (status (usernames req w).1 = 200%nat →
     ∃ l : list string,
       json (usernames req w).1 = NamesBody l ∧ l ≠ [] ∧
       length l = length (users w)) ∧
  (∀ l, json (eventsdata req w).1 = EventsBody true l → l ≠ []) ∧
  (∀ l, json (usernames req w).1 = NamesBody l → l ≠ []).
Proof.
  unfold eventsdata, usernames. run.
  split; [|split; [|split; [|split; [|split]]]].
  - intros ->. by rewrite map_to_list_empty.
  - by intros ->.
  - destruct (map_to_list (events w)) as [|d l] eqn:E; cbn; [discriminate|].
    intros _. by eexists.
  - destruct (users w) as [|u us]; cbn; [discriminate|].
    intros _. eexists. split; [done|]. split; [done|].
    cbn. by rewrite length_map.
  - destruct (map_to_list (events w)) as [|d l'] eqn:E; cbn; [discriminate|].
    by intros l [= <-].
  - destruct (users w) as [|u us]; cbn; [discriminate|].
    by intros l [= <-].
Qed.
End Lists.

(** * Further properties *)

(** ** The Authorization header *)

Lemma split_no_space (s : string) :
  no_space s = true → split " " s = [s].
Proof.
  induction s as [|c s IH]; cbn [split no_space]; [done|].
  intros [Hc Hs]%andb_true_iff. apply negb_true_iff in Hc. rewrite Hc.
  by rewrite IH.
Qed.

Lemma split_scheme (scheme rest : string) :
  no_space scheme = true →
  split " " (scheme +:+ " " +:+ rest) = scheme :: split " " rest.
Proof.
  induction scheme as [|c s IH]; [done|]. cbn [no_space].
  intros [Hc Hs]%andb_true_iff. apply negb_true_iff in Hc.
  change (String c s +:+ " " +:+ rest)
    with (String c (s +:+ " " +:+ rest)).
  cbn [split]. rewrite Hc. by rewrite IH.
Qed.

Section Header.
Context `{L : Libs}.

(** X1: The word before the space is not looked at: whatever the scheme, the
    token is the second piece of the header, and it is that piece that is
    verified. *)
Theorem bearer_token_ignores_scheme (req : Request) (scheme token : string) :
  authorization req = Some (scheme +:+ " " +:+ token) →
  no_space scheme = true →
  no_space token = true →
  bearer_token req = Some token ∧
  (token ≠ "" → requester req = jwt_verify (now req) SECRET_KEY token).
Proof.
  intros Ha Hs Ht. unfold requester, bearer_token. rewrite Ha.
  rewrite split_scheme, split_no_space by done. cbn. split; [done|].
  by destruct token.
Qed.
End Header.

Lemma bearer_token_ignores_scheme_witness :
  let req :=
    Sample.request (Some ("Basic " +:+ SECRET_KEY +:+ "." +:+ Sample.bob))
      Sample.post1 [] in
  bearer_token req = Some (SECRET_KEY +:+ "." +:+ Sample.bob) ∧
  requester (L := Reference.libs) req = Some Sample.bob.
Proof.
  pose proof (bearer_token_ignores_scheme (L := Reference.libs)
                (Sample.request
                   (Some ("Basic " +:+ SECRET_KEY +:+ "." +:+ Sample.bob))
                   Sample.post1 [])
                "Basic" (SECRET_KEY +:+ "." +:+ Sample.bob)
                eq_refl eq_refl eq_refl) as [H1 H2].
  split; [exact H1|]. rewrite H2; [reflexivity|discriminate].
Defined.

(** ** Accounts *)

Lemma split_first_spec {A} (f : A → bool) (l before after : list A) (x : A) :
  split_first f l = Some (before, x, after) →
  l = before ++ x :: after ∧ f x = true ∧
  ∀ y, y ∈ before → f y = false.
Proof.
  revert before. induction l as [|y l IH]; intros before; cbn; [done|].
  destruct (f y) eqn:Hy.
  - intros [= <- <- <-]. split; [done|]. split; [done|].
    intros z Hz. by apply elem_of_nil in Hz.
  - destruct (split_first f l) as [[[b z] a]|]; [|done].
    intros [= <- <- <-]. destruct (IH b eq_refl) as (-> & Hz & Hb).
    split; [done|]. split; [done|].
    intros v [->|Hv]%elem_of_cons; [done|by apply Hb].
Qed.

Lemma find_app_skip {A} (f : A → bool) (l1 l2 : list A) :
  (∀ y, y ∈ l1 → f y = false) → List.find f (l1 ++ l2) = List.find f l2.
Proof.
  induction l1 as [|y l1 IH]; cbn; [done|]. intros H.
  rewrite (H y) by apply list_elem_of_here.
  apply IH. intros z Hz. apply H. by apply list_elem_of_further.
Qed.

Lemma existsb_false_elem_of {A} (f : A → bool) (l : list A) :
  existsb f l = false ↔ ∀ y, y ∈ l → f y = false.
Proof.
  induction l as [|x l IH]; cbn.
  - split; [|done]. intros _ y Hy. by apply elem_of_nil in Hy.
  - rewrite orb_false_iff, IH. split.
    + intros [Hx Hl] y [->|Hy]%elem_of_cons; auto.
    + intros H. split; [apply H, list_elem_of_here|].
      intros y Hy. apply H. by apply list_elem_of_further.
Qed.


Section MoreAccounts.
Context `{L : Libs}.

(** What PUT /user does, by the status of its answer. *)
Lemma update_user_cases (req : Request) (w : World) :
  (status (update_user req w).1 ≠ 200%nat → (update_user req w).2 = w) ∧
  (status (update_user req w).1 = 200%nat →
   ∃ (u o : string) (before after : list User.t) (user : User.t),
     requester req = Some u ∧
     castObjectId u = Some o ∧
     split_first (fun v => bool_decide (User.userId v = o)) (users w)
       = Some (before, user, after) ∧
     existsb
       (fun v =>
          bool_decide
            (User.email v = User.email (apply_update (updateData_of req) user)))
       (before ++ after) = false ∧
     update_user req w =
       (mkResponse 200
          (ProfileBody "Profile updated"
             (User.select_minus_password
                (apply_update (updateData_of req) user))),
        set_users (before ++ apply_update (updateData_of req) user :: after)
          w)).
Proof.
  unfold update_user, findOneAndUpdate, requester. run.
  destruct (truthy (bearer_token req)) as [token|]; cbn; [|by split].
  destruct (jwt_verify _ _ _) as [u|]; cbn; [|by split].
  destruct (castObjectId u) as [o|] eqn:Ho; cbn; [|by split].
  destruct (split_first _ (users w)) as [[[before user] after]|] eqn:Hs;
    cbn; [|by split].
  fold (updateData_of req).
  destruct (existsb _ (before ++ after)) eqn:Hex; cbn; [by split|].
  split; [done|]. intros _. by exists u, o, before, after, user.
Qed.

(** X3: After a registration that succeeded, a further registration with the
    same email is refused with "User already exists" and changes nothing. *)
Theorem register_same_email_refused (reg1 reg2 : Request) (w : World) :
  status (register reg1 w).1 = 201%nat →
  body reg2 !! "email" = body reg1 !! "email" →
  register reg2 (register reg1 w).2 =
    (mkResponse 400 (Message "User already exists"), (register reg1 w).2).
Proof.
  intros H201 Hsame.
  destruct (register_created reg1 w H201)
    as (u & p & Hreg & Hnone & _ & _ & Hemail & _).
  rewrite Hreg. cbn [snd]. unfold register. run. cbn [users set_users].
  rewrite Hsame, Hemail. rewrite Hemail in Hnone. cbn [findOne_email] in *.
  rewrite (find_app_None _ _ _ Hnone). cbn.
  by rewrite bool_decide_true.
Qed.

End MoreAccounts.

Lemma register_same_email_refused_witness :
  let reg :=
    Sample.request None ""
      [("role", "Musician"); ("firstName", "Dan"); ("lastName", "Dow");
       ("email", "dan@x.com"); ("password", "pw"); ("phone", "1");
       ("address", "2"); ("country", "3"); ("state", "4")] in
  let register := register (L := Reference.libs) in
  register reg (register reg Sample.world).2 =
    (mkResponse 400 (Message "User already exists"),
     (register reg Sample.world).2).
Proof.
  apply (register_same_email_refused (L := Reference.libs)); reflexivity.
Defined.


Section Registration.
Context `{L : Libs}.

(** X5: A registration is accepted only when the body has each of the nine
    fields, all of them non-empty but for the password, which may be the
    empty string. *)
Theorem register_requires_fields (reg : Request) (w : World) (f : string) :
  status (register reg w).1 = 201%nat →
  f ∈ register_fields →
  ∃ s : string, body reg !! f = Some s ∧ (f ≠ "password" → s ≠ "").
Proof.
  unfold register, insert_user. run.
  destruct (findOne_email _ _); [discriminate|].
  destruct (body reg !! "password") as [p|] eqn:Hp; cbn; [|discriminate].
  destruct (new_user _ _ _ _ _ _ _ _ _ _ _) as [u|] eqn:Hnew; [|discriminate].
  intros _ Hf. unfold new_user, required in Hnew.
  repeat match type of Hnew with
         | context [mbind _ (truthy (body reg !! ?k))] =>
             let s := fresh "s" in let E := fresh "E" in
             destruct (truthy (body reg !! k)) as [s|] eqn:E; cbn in Hnew;
             [apply truthy_Some in E as [E ?]|discriminate]
         | context [mbind _ (match ?h with
                             | EmptyString => None
                             | String _ _ => _
                             end)] =>
             destruct h; cbn in Hnew; [discriminate|]
         end.
  unfold register_fields in Hf.
  repeat (apply elem_of_cons in Hf as [->|Hf]);
    try (by apply elem_of_nil in Hf);
    first [ eexists; split; [eassumption|intros _; assumption]
          | exists p; split; [done|intros N; by destruct N] ].
Qed.
End Registration.

Lemma register_requires_fields_witness :
  ∃ s : string,
    body (Sample.request None ""
            [("role", "Musician"); ("firstName", "Dan"); ("lastName", "Dow");
             ("email", "dan@x.com"); ("password", ""); ("phone", "1");
             ("address", "2"); ("country", "3"); ("state", "4")])
      !! "password" = Some s ∧
    ("password" ≠ "password" → s ≠ "").
Proof.
  apply (register_requires_fields (L := Reference.libs)
           (Sample.request None ""
              [("role", "Musician"); ("firstName", "Dan");
               ("lastName", "Dow"); ("email", "dan@x.com");
               ("password", ""); ("phone", "1"); ("address", "2");
               ("country", "3"); ("state", "4")])
           Sample.world "password").
  - reflexivity.
  - unfold register_fields. set_solver.
Defined.

Section Profile.
Context `{L : Libs}.

(** X7: PUT /user never changes the identifier, the role, the phone or the
    address of any user, and neither adds nor removes a user. *)
Theorem update_user_fixed_part (req : Request) (w : World) :
  fixed_part <$> users (update_user req w).2 = fixed_part <$> users w.
Proof.
  destruct (update_user_cases req w) as [Hother H200].
  destruct (decide (status (update_user req w).1 = 200%nat)) as [E|N].
  - destruct (H200 E)
      as (u & o & before & after & user & _ & _ & Hs & _ & Hupd).
    rewrite Hupd. cbn.
    apply split_first_spec in Hs as (-> & _ & _).
    by rewrite !fmap_app, !fmap_cons.
  - by rewrite Hother.
Qed.

(** X8: After a profile update that set a new password, a login with the
    email of the updated profile and the new password yields the token of
    that user. *)
Theorem password_update_then_login (req lreq : Request) (w : World)
    (p : string) :
  status (update_user req w).1 = 200%nat →
  body req !! "password" = Some p →
  p ≠ "" →
  bcrypt_compare p (bcrypt_hash (salt req) p) = true →
  ∃ v : User.view,
    json (update_user req w).1 = ProfileBody "Profile updated" v ∧
    (body lreq !! "email" = Some (User.v_email v) →
     body lreq !! "password" = Some p →
     login lreq (update_user req w).2 =
       (mkResponse 200
          (TokenBody (jwt_sign (now lreq) SECRET_KEY (User.v_userId v))),
        (update_user req w).2)).
Proof.
  intros E Hp Hne Hlaw.
  destruct (update_user_cases req w) as [_ H200].
  destruct (H200 E)
    as (u & o & before & after & user & _ & _ & Hs & Hex & Hupd).
  rewrite Hupd. cbn [fst snd json]. eexists. split; [done|].
  intros Hle Hlp. unfold login. run. rewrite Hle, Hlp.
  cbn [findOne_email users set_users User.v_email User.v_userId
         User.select_minus_password].
  set (u' := apply_update (updateData_of req) user) in *.
  assert (User.password u' = bcrypt_hash (salt req) p) as Hpw.
  { subst u'. cbn. rewrite Hp. by destruct p. }
  clearbody u'.
  rewrite existsb_false_elem_of in Hex.
  rewrite find_app_skip.
  2:{ intros y Hy. apply bool_decide_eq_false.
      specialize (Hex y). rewrite bool_decide_eq_false in Hex.
      apply Hex, elem_of_app. by left. }
  cbn. rewrite bool_decide_true by done. cbn.
  by rewrite Hpw, Hlaw.
Qed.

(** X9: The handlers that only read leave the world as it is, whatever the
    request. *)
Theorem readers_change_nothing (h : Request → World → Response * World)
    (req : Request) (w : World) :
  h ∈ readers → (h req w).2 = w.
Proof.
  intros Hh. unfold readers in Hh.
  repeat (apply elem_of_cons in Hh as [->|Hh]);
    [ unfold login | unfold usernames | unfold eventsdata
    | unfold get_user, findOne_userId | by apply elem_of_nil in Hh ]; run.
  - destruct (findOne_email _ _); [|done].
    destruct (body req !! "password"); cbn; [|done].
    by destruct (negb _).
  - by destruct (length (users w) =? 0)%nat.
  - by destruct (length (map_to_list (events w)) =? 0)%nat.
  - destruct (truthy (bearer_token req)); [|done].
    destruct (jwt_verify _ _ _) as [u|]; cbn; [|done].
    destruct (castObjectId u); cbn; [|done].
    by destruct (List.find _ _).
Qed.

(** X10: Registration, login and profile read end to end: after a registration
    that succeeded, a login with the same credentials returns a token, and
    that token, once it verifies and is sent as the bearer token, reads
    back the registered profile. *)
Theorem register_login_get_user (reg lreq greq : Request) (w : World)
    (e p : string) :
  status (register reg w).1 = 201%nat →
  body reg !! "email" = Some e →
  body reg !! "password" = Some p →
  body lreq !! "email" = Some e →
  body lreq !! "password" = Some p →
  bcrypt_compare p (bcrypt_hash (salt reg) p) = true →
  List.find (fun u => bool_decide (User.userId u = fresh reg)) (users w)
    = None →
  castObjectId (fresh reg) = Some (fresh reg) →
  let token := jwt_sign (now lreq) SECRET_KEY (fresh reg) in
  truthy (bearer_token greq) = Some token →
  jwt_verify (now greq) SECRET_KEY token = Some (fresh reg) →
  login lreq (register reg w).2 =
    (mkResponse 200 (TokenBody token), (register reg w).2) ∧
  ∃ v : User.view,
    get_user greq (register reg w).2 =
      (mkResponse 200 (UserBody v), (register reg w).2) ∧
    User.v_userId v = fresh reg ∧
    User.v_email v = e ∧
    body reg !! "role" = Some (User.v_role v).
Proof.
  intros H201 He Hp Hle Hlp Hlaw Hfresh Hcast token Htok Hverify.
  destruct (register_created reg w H201)
    as (u & p' & Hreg & Hnone & Hid & Hrole & Hemail & Hpw & Hhash & _).
  rewrite Hreg. cbn [snd].
  rewrite He in Hemail, Hnone. injection Hemail as ->.
  rewrite Hp in Hpw. injection Hpw as <-.
  split.
  - unfold login. run. rewrite Hle, Hlp. cbn [findOne_email users set_users] in *.
    rewrite (find_app_None _ _ _ Hnone). cbn.
    rewrite bool_decide_true by done. cbn. by rewrite Hhash, Hlaw, Hid.
  - unfold get_user, findOne_userId. run.
    rewrite Htok, Hverify, Hcast. cbn [users set_users].
    rewrite (find_app_None _ _ _ Hfresh). cbn.
    rewrite bool_decide_true by done. by eexists.
Qed.
End Profile.

Lemma password_update_then_login_witness :
  let req :=
    Sample.request (Sample.bearer (User.userId Sample.carol)) ""
      [("password", "new")] in
  let lreq :=
    Sample.request None "" [("email", "carol@x.com"); ("password", "new")] in
  login (L := Reference.libs) lreq
    (update_user (L := Reference.libs) req Sample.world).2 =
    (mkResponse 200
       (TokenBody
          (jwt_sign (Libs := Reference.libs) (now lreq) SECRET_KEY
             (User.userId Sample.carol))),
     (update_user (L := Reference.libs) req Sample.world).2).
Proof.
  destruct (password_update_then_login (L := Reference.libs)
              (Sample.request (Sample.bearer (User.userId Sample.carol)) ""
                 [("password", "new")])
              (Sample.request None ""
                 [("email", "carol@x.com"); ("password", "new")])
              Sample.world "new" eq_refl eq_refl
              ltac:(discriminate) eq_refl) as (v & Hv & Hlogin).
  injection Hv as <-. exact (Hlogin eq_refl eq_refl).
Defined.

Lemma readers_change_nothing_witness :
  (login (L := Reference.libs)
     (Sample.request None "" [("email", "carol@x.com"); ("password", "pw")])
     Sample.world).2 = Sample.world.
Proof.
  apply (readers_change_nothing (L := Reference.libs)
           (login (L := Reference.libs))).
  apply list_elem_of_here.
Defined.

Lemma register_login_get_user_witness :
  let reg :=
    Sample.request None ""
      [("role", "Artist"); ("firstName", "Dan"); ("lastName", "Dow");
       ("email", "dan@x.com"); ("password", "pw"); ("phone", "1");
       ("address", "2"); ("country", "3"); ("state", "4");
       ("description", "I paint")] in
  let greq :=
    Sample.request (Sample.bearer "ffffffffffffffffffffffff") "" [] in
  ∃ v : User.view,
    get_user (L := Reference.libs) greq
      (register (L := Reference.libs) reg Sample.world).2 =
      (mkResponse 200 (UserBody v),
       (register (L := Reference.libs) reg Sample.world).2) ∧
    User.v_userId v = fresh reg ∧
    User.v_email v = "dan@x.com" ∧
    body reg !! "role" = Some (User.v_role v).
Proof.
  refine (proj2 (register_login_get_user (L := Reference.libs)
            (Sample.request None ""
               [("role", "Artist"); ("firstName", "Dan"); ("lastName", "Dow");
                ("email", "dan@x.com"); ("password", "pw"); ("phone", "1");
                ("address", "2"); ("country", "3"); ("state", "4");
                ("description", "I paint")])
            (Sample.request None ""
               [("email", "dan@x.com"); ("password", "pw")])
            (Sample.request (Sample.bearer "ffffffffffffffffffffffff") "" [])
            Sample.world "dan@x.com" "pw" _ _ _ _ _ _ _ _ _ _));
    reflexivity.
Defined.

(** ** The post feed *)

Lemma truthy_append_space (a b : string) :
  truthy (Some (a +:+ " " +:+ b)) = Some (a +:+ " " +:+ b).
Proof. by destruct a. Qed.

Lemma truthy_idem (v : option string) (s : string) :
  truthy v = Some s → truthy (Some s) = Some s.
Proof. intros [_ H]%truthy_Some. by destruct s. Qed.

Section Feed.
Context `{L : Libs}.

(** One run of POST /posts for a token in the body that verifies to an
    existing user, when the generated identifier is free. *)
Lemma create_post_existing (req : Request) (w : World)
    (token message u : string) (user : User.t) :
  truthy (body req !! "token") = Some token →
  truthy (body req !! "message") = Some message →
  jwt_verify (now req) SECRET_KEY token = Some u →
  castObjectId u = Some u →
  List.find (fun v => bool_decide (User.userId v = u)) (users w)
    = Some user →
  let p :=
    {| Post.userId := u;
       Post.userName := User.firstName user +:+ " " +:+ User.lastName user;
       Post.message := message; Post.dateTime := now req;
       Post.likedUsers := [] |} in
  create_post req w =
    (mkResponse 201 (PostBody (fresh req, p)),
     emit (newPost_event (fresh req, p))
       (set_posts (<[fresh req := p]> (posts w)) w)).
Proof.
  intros Ht Hm Hv Hc Hfind p. unfold create_post, findOne_userId.
  rewrite Ht, Hm. run. rewrite Hv, Hc, Hfind.
  unfold new_post, required.
  rewrite truthy_append_space, (truthy_idem _ _ Hm). cbn.
  apply find_some in Hfind as [_ Hid]. apply bool_decide_eq_true in Hid.
  subst p. by rewrite Hid.
Qed.

(** X11: A post that its author creates and then deletes leaves the posts as
    they were; the clients were sent the new post and then its
    identifier. *)
Theorem create_then_delete_restores_posts (req dreq : Request) (w : World)
    (token message u : string) (user : User.t) :
  truthy (body req !! "token") = Some token →
  truthy (body req !! "message") = Some message →
  jwt_verify (now req) SECRET_KEY token = Some u →
  castObjectId u = Some u →
  List.find (fun v => bool_decide (User.userId v = u)) (users w)
    = Some user →
  posts w !! fresh req = None →
  requester dreq = Some u →
  castObjectId (param_id dreq) = Some (fresh req) →
  ∃ p : Post.t,
    (create_post req w).1 = mkResponse 201 (PostBody (fresh req, p)) ∧
    posts (create_post req w).2 !! fresh req = Some p ∧
    Post.userId p = u ∧ Post.message p = message ∧
    (delete_post dreq (create_post req w).2).1 =
      mkResponse 200 (Message "Post deleted successfully") ∧
    posts (delete_post dreq (create_post req w).2).2 = posts w ∧
    emitted (delete_post dreq (create_post req w).2).2 =
      emitted w ++ [newPost_event (fresh req, p);
                    deletePost_event (fresh req)].
Proof.
  intros Ht Hm Hv Hc Hfind Hfree Hr Hd.
  pose proof (create_post_existing req w token message u user
                Ht Hm Hv Hc Hfind) as Hcreate.
  cbv zeta in Hcreate. rewrite Hcreate. cbn [fst snd].
  eexists. split; [done|]. split; [cbn; apply lookup_insert_eq|].
  split; [done|]. split; [done|].
  open_requester Hr dtoken Hdtok.
  unfold delete_post. rewrite Hdtok. unfold findById. run.
  rewrite Hr, Hd. cbn [posts emit set_posts].
  rewrite lookup_insert_eq. cbn [Post.userId].
  rewrite bool_decide_true by done. cbn.
  split; [done|]. split; [by apply delete_insert_id|].
  by rewrite <- app_assoc.
Qed.

(** X12: PUT /posts/like/:id and DELETE /posts/:id never touch users, events or
    instruments, whatever the request; a like neither adds nor removes a
    post, and a delete removes at most the post it addresses and alters no
    other. *)
Theorem post_handlers_frame (req : Request) (w : World) :
  (users (like req w).2 = users w ∧
   events (like req w).2 = events w ∧
   instruments (like req w).2 = instruments w ∧
   dom (posts (like req w).2) = dom (posts w) ∧
   ∀ o, castObjectId (param_id req) ≠ Some o →
        posts (like req w).2 !! o = posts w !! o) ∧
  (users (delete_post req w).2 = users w ∧
   events (delete_post req w).2 = events w ∧
   instruments (delete_post req w).2 = instruments w ∧
   ∀ o, castObjectId (param_id req) ≠ Some o →
        posts (delete_post req w).2 !! o = posts w !! o).
Proof.
  split.
  - unfold like, findById.
    destruct (truthy (bearer_token req)) as [token|]; [|done]. run.
    destruct (jwt_verify _ _ _) as [u|]; cbn; [|done].
    destruct (castObjectId (param_id req)) as [o|] eqn:Ho; cbn; [|done].
    destruct (posts w !! o) as [p|] eqn:Hp; cbn; [|done].
    destruct (existsb _ _); cbn.
    + repeat split; try done.
      * apply dom_insert_lookup_L. by rewrite Hp.
      * intros o' Hne. apply lookup_insert_ne. congruence.
    + destruct (castObjectId u) as [o'|]; cbn; [|done].
      repeat split; try done.
      * apply dom_insert_lookup_L. by rewrite Hp.
      * intros o'' Hne. apply lookup_insert_ne. congruence.
  - unfold delete_post, findById.
    destruct (truthy (bearer_token req)) as [token|]; [|done]. run.
    destruct (jwt_verify _ _ _) as [u|]; cbn; [|done].
    destruct (castObjectId (param_id req)) as [o|] eqn:Ho; cbn; [|done].
    destruct (posts w !! o) as [p|] eqn:Hp; cbn; [|done].
    destruct (negb _); cbn; [done|].
    repeat split; try done.
    intros o' Hne. apply lookup_delete_ne. congruence.
Qed.

(** X13: A deleted post is gone for good: after a delete that succeeded, a like
    or a delete of the same post by any authenticated user is answered 404
    "Post not found" and changes nothing. *)
Theorem deleted_post_is_not_found (dreq req : Request) (w : World)
    (u o : string) :
  status (delete_post dreq w).1 = 200%nat →
  castObjectId (param_id dreq) = Some o →
  requester req = Some u →
  castObjectId (param_id req) = Some o →
  like req (delete_post dreq w).2 =
    (mkResponse 404 (Message "Post not found"), (delete_post dreq w).2) ∧
  delete_post req (delete_post dreq w).2 =
    (mkResponse 404 (Message "Post not found"), (delete_post dreq w).2).
Proof.
  intros H200 Hd Hr Ho.
  assert (posts (delete_post dreq w).2 !! o = None) as Hgone.
  { revert H200. unfold delete_post, findById.
    destruct (truthy (bearer_token dreq)) as [token|]; [|discriminate]. run.
    destruct (jwt_verify _ _ _) as [v|]; cbn; [|discriminate].
    rewrite Hd. cbn.
    destruct (posts w !! o) as [p|] eqn:Hp; cbn; [|discriminate].
    destruct (negb _); cbn; [discriminate|].
    intros _. apply lookup_delete_eq. }
  set (w1 := (delete_post dreq w).2) in *. clearbody w1.
  open_requester Hr token Htok.
  unfold like, delete_post, findById. rewrite Htok. run.
  by rewrite Hr, Ho, Hgone.
Qed.

(** X14: Behind a valid token, an [:id] that does not cast to an ObjectId is
    answered 500, not 404; an [:id] that casts and addresses nothing is
    answered 404.  Neither changes anything. *)
Theorem by_id_guarded_errors (h : Request → World → Response * World)
    (req : Request) (w : World) (u : string) :
  h ∈ by_id_guarded →
  requester req = Some u →
  (castObjectId (param_id req) = None →
     status (h req w).1 = 500%nat ∧ (h req w).2 = w) ∧
  (∀ o, castObjectId (param_id req) = Some o →
        posts w !! o = None → instruments w !! o = None →
        status (h req w).1 = 404%nat ∧ (h req w).2 = w).
Proof.
  intros Hh Hr. open_requester Hr token Htok. unfold by_id_guarded in Hh.
  repeat (apply elem_of_cons in Hh as [->|Hh]);
    [ unfold like | unfold delete_post | unfold rent
    | unfold return_instrument | by apply elem_of_nil in Hh ];
    unfold findById; run; rewrite Htok, Hr;
    (split; [intros ->; done | intros o -> Hp Hi; by rewrite ?Hp, ?Hi]).
Qed.
End Feed.

Lemma create_then_delete_restores_posts_witness :
  let carol := User.userId Sample.carol in
  let req :=
    Sample.request None ""
      [("token", SECRET_KEY +:+ "." +:+ carol); ("message", "hi")] in
  let dreq := Sample.request (Sample.bearer carol) (fresh req) [] in
  ∃ p : Post.t,
    (create_post (L := Reference.libs) req Sample.world).1 =
      mkResponse 201 (PostBody (fresh req, p)) ∧
    posts (create_post (L := Reference.libs) req Sample.world).2
      !! fresh req = Some p ∧
    Post.userId p = carol ∧ Post.message p = "hi" ∧
    (delete_post (L := Reference.libs) dreq
       (create_post (L := Reference.libs) req Sample.world).2).1 =
      mkResponse 200 (Message "Post deleted successfully") ∧
    posts (delete_post (L := Reference.libs) dreq
             (create_post (L := Reference.libs) req Sample.world).2).2 =
      posts Sample.world ∧
    emitted (delete_post (L := Reference.libs) dreq
               (create_post (L := Reference.libs) req Sample.world).2).2 =
      emitted Sample.world ++ [newPost_event (fresh req, p);
                               deletePost_event (fresh req)].
Proof.
  apply (create_then_delete_restores_posts (L := Reference.libs)
           (Sample.request None ""
              [("token", SECRET_KEY +:+ "." +:+ User.userId Sample.carol);
               ("message", "hi")])
           (Sample.request (Sample.bearer (User.userId Sample.carol))
              "ffffffffffffffffffffffff" [])
           Sample.world (SECRET_KEY +:+ "." +:+ User.userId Sample.carol)
           "hi" (User.userId Sample.carol) Sample.carol);
    reflexivity.
Defined.

Lemma deleted_post_is_not_found_witness :
  let dreq := Sample.request (Sample.bearer Sample.alice) Sample.post1 [] in
  let req := Sample.request (Sample.bearer Sample.bob) Sample.post1 [] in
  like (L := Reference.libs) req
    (delete_post (L := Reference.libs) dreq Sample.world).2 =
    (mkResponse 404 (Message "Post not found"),
     (delete_post (L := Reference.libs) dreq Sample.world).2).
Proof.
  refine (proj1 (deleted_post_is_not_found (L := Reference.libs)
            (Sample.request (Sample.bearer Sample.alice) Sample.post1 [])
            (Sample.request (Sample.bearer Sample.bob) Sample.post1 [])
            Sample.world Sample.bob Sample.post1 _ _ _ _)); reflexivity.
Defined.

Lemma by_id_guarded_errors_witness :
  let req := Sample.request (Sample.bearer Sample.bob) "no-such-id" [] in
  status (rent (L := Reference.libs) req Sample.world).1 = 500%nat ∧
  (rent (L := Reference.libs) req Sample.world).2 = Sample.world.
Proof.
  refine (proj1 (by_id_guarded_errors (L := Reference.libs)
            (rent (L := Reference.libs))
            (Sample.request (Sample.bearer Sample.bob) "no-such-id" [])
            Sample.world Sample.bob _ _) _); try reflexivity.
  unfold by_id_guarded. set_solver.
Defined.


Lemma newer_first_total : Total newer_first.
Proof. intros p q. unfold newer_first. lia. Qed.

Lemma newer_first_transitive : Transitive newer_first.
Proof. intros p q r. unfold newer_first. lia. Qed.

Section Listing.
Context `{L : Libs}.

(** X16: GET /posts answers 200 with every stored post, each once, the later
    before the earlier, and changes nothing. *)
Theorem get_posts_newest_first (req : Request) (w : World) :
  ∃ l : list (Doc Post.t),
    get_posts req w = (mkReply 200 (PostsContent l), w) ∧
    l ≡ₚ map_to_list (posts w) ∧
    StronglySorted newer_first l ∧
    NoDup l ∧
    ∀ o p, (o, p) ∈ l ↔ posts w !! o = Some p.
Proof.
  eexists. split; [reflexivity|].
  pose proof (merge_sort_Permutation newer_first (map_to_list (posts w)))
    as Hperm.
  split; [done|]. split.
  - apply (StronglySorted_merge_sort newer_first
             (Transitive0 := newer_first_transitive)
             (Total0 := newer_first_total)).
  - split.
    + rewrite Hperm. apply NoDup_map_to_list.
    + intros o p. rewrite Hperm. apply elem_of_map_to_list.
Qed.
End Listing.

(** ** Instruments *)

Section Rental.
Context `{L : Libs}.

(** What PUT /instruments/rent/:id has done when it answers 200. *)
Lemma rent_succeeded (req : Request) (w : World) :
  status (rent req w).1 = 200%nat →
  ∃ (u o : string) (i : Instrument.t) (rd erd : option Z),
    requester req = Some u ∧
    castObjectId (param_id req) = Some o ∧
    instruments w !! o = Some i ∧
    Instrument.userId i ≠ u ∧
    Instrument.status i = "available" ∧
    (rent req w).2 =
      set_instruments
        (<[o := Instrument.set_rental "not available" rd erd (Some u) i]>
           (instruments w)) w.
Proof.
  unfold rent, findById, save_rental, requester. run.
  destruct (truthy (bearer_token req)) as [token|]; cbn; [|discriminate].
  destruct (jwt_verify _ _ _) as [u|]; cbn; [|discriminate].
  destruct (castObjectId (param_id req)) as [o|]; cbn; [|discriminate].
  destruct (instruments w !! o) as [i|] eqn:Hi; cbn; [|discriminate].
  case_bool_decide as Hown; cbn; [discriminate|].
  case_bool_decide as Hst; cbn; [|discriminate].
  destruct (cast_date (body req !! "rentedDate")) as [rd|]; cbn;
    [|discriminate].
  destruct (cast_date (body req !! "expectedReturnDate")) as [erd|]; cbn;
    [|discriminate].
  intros _. by exists u, o, i, rd, erd.
Qed.

(** X17: An instrument that was just rented cannot be rented again: after a
    rent that succeeded, a rent of the same instrument by any
    authenticated user is answered 400 and changes nothing. *)
Theorem rent_twice_refused (req1 req2 : Request) (w : World) (u2 : string) :
  status (rent req1 w).1 = 200%nat →
  castObjectId (param_id req2) = castObjectId (param_id req1) →
  requester req2 = Some u2 →
  status (rent req2 (rent req1 w).2).1 = 400%nat ∧
  json (rent req2 (rent req1 w).2).1 ∈
    [Message "You cannot rent your own instrument.";
     Message "Instrument is not available for rent."] ∧
  (rent req2 (rent req1 w).2).2 = (rent req1 w).2.
Proof.
  intros H200 Hid Hr2.
  destruct (rent_succeeded req1 w H200)
    as (u & o & i & rd & erd & _ & Ho & Hi & _ & _ & ->).
  rewrite Ho in Hid. open_requester Hr2 token Htok.
  unfold rent at 1 2 3, findById. run. rewrite Htok, Hr2, Hid.
  cbn [instruments set_instruments]. rewrite lookup_insert_eq.
  cbn [Instrument.userId Instrument.status Instrument.set_rental].
  case_bool_decide; cbn; [set_solver|].
  rewrite bool_decide_false by discriminate. cbn. set_solver.
Qed.

(** X18: Renting and returning by the same user: the return succeeds and the
    instrument is available again with its dates unset and its renter
    empty; a second return by that user is then refused and changes
    nothing. *)
Theorem rent_return_cycle (req rreq : Request) (w : World) (u : string) :
  status (rent req w).1 = 200%nat →
  requester req = Some u →
  requester rreq = Some u →
  castObjectId (param_id rreq) = castObjectId (param_id req) →
  u ≠ "" →
  ∃ (o : string) (i : Instrument.t),
    instruments w !! o = Some i ∧
    status (return_instrument rreq (rent req w).2).1 = 200%nat ∧
    instruments (return_instrument rreq (rent req w).2).2 =
      <[o := Instrument.set_rental "available" None None (Some "") i]>
        (instruments w) ∧
    return_instrument rreq (return_instrument rreq (rent req w).2).2 =
      (mkResponse 400
         (Message "You are not the renter of this instrument."),
       (return_instrument rreq (rent req w).2).2).
Proof.
  intros H200 Hr Hrr Hid Hne.
  destruct (rent_succeeded req w H200)
    as (u' & o & i & rd & erd & Hr' & Ho & Hi & _ & _ & ->).
  rewrite Hr in Hr'. injection Hr' as <-. rewrite Ho in Hid.
  exists o, i. split; [done|].
  open_requester Hrr token Htok.
  assert (∀ w' i',
            instruments w' !! o = Some i' →
            return_instrument rreq w' =
              if bool_decide (Instrument.renterId i' = Some u)
              then
                let i'' :=
                  Instrument.set_rental "available" None None (Some "") i' in
                (mkResponse 200
                   (InstrumentBody
                      "Instrument returned and status updated to available!"
                      (o, i'')),
                 set_instruments (<[o := i'']> (instruments w')) w')
              else
                (mkResponse 400
                   (Message "You are not the renter of this instrument."),
                 w')) as Hret.
  { intros w' i' Hi'. unfold return_instrument, findById, save_rental. run.
    rewrite Htok, Hrr, Hid, Hi'. by case_bool_decide. }
  erewrite Hret by (cbn; apply lookup_insert_eq).
  cbn [Instrument.renterId Instrument.set_rental].
  rewrite bool_decide_true by done. cbv zeta. cbn [fst snd].
  split; [done|]. split.
  { cbn. apply insert_insert_eq. }
  erewrite Hret by (cbn; apply lookup_insert_eq).
  cbn [Instrument.renterId Instrument.set_rental].
  rewrite bool_decide_false; [done|]. intros [= E]. by subst u.
Qed.

(** X19: Renting and returning never touch users, events or posts, neither add
    nor remove an instrument, and alter no instrument but the one
    addressed, whatever the request. *)
Theorem rental_handlers_frame (h : Request → World → Response * World)
    (req : Request) (w : World) :
  h ∈ [rent; return_instrument] →
  users (h req w).2 = users w ∧
  events (h req w).2 = events w ∧
  posts (h req w).2 = posts w ∧
  emitted (h req w).2 = emitted w ∧
  dom (instruments (h req w).2) = dom (instruments w) ∧
  ∀ o, castObjectId (param_id req) ≠ Some o →
       instruments (h req w).2 !! o = instruments w !! o.
Proof.
  intros Hh.
  repeat (apply elem_of_cons in Hh as [->|Hh]);
    [unfold rent|unfold return_instrument|by apply elem_of_nil in Hh];
    unfold findById, save_rental; run;
    (destruct (truthy (bearer_token req)) as [token|]; cbn; [|done]);
    (destruct (jwt_verify _ _ _) as [u|]; cbn; [|done]);
    (destruct (castObjectId (param_id req)) as [o|]; cbn; [|done]);
    (destruct (instruments w !! o) as [i|] eqn:Hi; cbn; [|done]).
  - case_bool_decide; cbn; [done|].
    case_bool_decide; cbn; [|done].
    destruct (cast_date (body req !! "rentedDate")); cbn; [|done].
    destruct (cast_date (body req !! "expectedReturnDate")); cbn; [|done].
    repeat split; try done.
    + apply dom_insert_lookup_L. by rewrite Hi.
    + intros o' Hne. apply lookup_insert_ne. congruence.
  - case_bool_decide; cbn; [|done].
    repeat split; try done.
    + apply dom_insert_lookup_L. by rewrite Hi.
    + intros o' Hne. apply lookup_insert_ne. congruence.
Qed.
End Rental.

Lemma rent_twice_refused_witness :
  let req1 := Sample.request (Sample.bearer Sample.bob) Sample.guitar1 [] in
  let req2 :=
    Sample.request (Sample.bearer (User.userId Sample.carol))
      Sample.guitar1 [] in
  let rent := rent (L := Reference.libs) in
  status (rent req2 (rent req1 Sample.world).2).1 = 400%nat ∧
  json (rent req2 (rent req1 Sample.world).2).1 ∈
    [Message "You cannot rent your own instrument.";
     Message "Instrument is not available for rent."] ∧
  (rent req2 (rent req1 Sample.world).2).2 = (rent req1 Sample.world).2.
Proof.
  apply (rent_twice_refused (L := Reference.libs)
           (Sample.request (Sample.bearer Sample.bob) Sample.guitar1 [])
           (Sample.request (Sample.bearer (User.userId Sample.carol))
              Sample.guitar1 [])
           Sample.world (User.userId Sample.carol)); reflexivity.
Defined.

Lemma rent_return_cycle_witness :
  let req := Sample.request (Sample.bearer Sample.bob) Sample.guitar1 [] in
  ∃ (o : string) (i : Instrument.t),
    instruments Sample.world !! o = Some i ∧
    status (return_instrument (L := Reference.libs) req
              (rent (L := Reference.libs) req Sample.world).2).1 = 200%nat ∧
    instruments (return_instrument (L := Reference.libs) req
                   (rent (L := Reference.libs) req Sample.world).2).2 =
      <[o := Instrument.set_rental "available" None None (Some "") i]>
        (instruments Sample.world) ∧
    return_instrument (L := Reference.libs) req
      (return_instrument (L := Reference.libs) req
         (rent (L := Reference.libs) req Sample.world).2).2 =
      (mkResponse 400
         (Message "You are not the renter of this instrument."),
       (return_instrument (L := Reference.libs) req
          (rent (L := Reference.libs) req Sample.world).2).2).
Proof.
  apply (rent_return_cycle (L := Reference.libs)
           (Sample.request (Sample.bearer Sample.bob) Sample.guitar1 [])
           (Sample.request (Sample.bearer Sample.bob) Sample.guitar1 [])
           Sample.world Sample.bob);
    first [reflexivity | discriminate].
Defined.

Lemma rental_handlers_frame_witness :
  let req := Sample.request (Sample.bearer Sample.bob) Sample.guitar1 [] in
  posts (rent (L := Reference.libs) req Sample.world).2
    = posts Sample.world ∧
  dom (instruments (rent (L := Reference.libs) req Sample.world).2)
    = dom (instruments Sample.world).
Proof.
  destruct (rental_handlers_frame (L := Reference.libs)
              (rent (L := Reference.libs))
              (Sample.request (Sample.bearer Sample.bob) Sample.guitar1 [])
              Sample.world (list_elem_of_here _ _))
    as (_ & _ & Hp & _ & Hd & _).
  exact (conj Hp Hd).
Defined.

Section Listings.
Context `{L : Libs}.

(** X20: POST /addnewinstrument stores an instrument only when the body names
    it, its category, and its owner's identifier and name, each non-empty;
    it then adds that one instrument under the fresh identifier and alters
    no other.  Whenever it does not answer 201 nothing has changed. *)
Theorem addnewinstrument_adds_one (req : Request) (w : World) :
  (status (addnewinstrument req w).1 ≠ 201%nat →
     (addnewinstrument req w).2 = w) ∧
  (status (addnewinstrument req w).1 = 201%nat →
     (∀ f, f ∈ instrument_fields →
           ∃ s : string, body req !! f = Some s ∧ s ≠ "") ∧
     ∃ i : Instrument.t,
       (addnewinstrument req w).2 =
         set_instruments (<[fresh req := i]> (instruments w)) w ∧
       instruments w !! fresh req = None ∧
       body req !! "instrumentName" = Some (Instrument.instrumentName i) ∧
       body req !! "userId" = Some (Instrument.userId i) ∧
       body req !! "renterId" = Instrument.renterId i).
Proof.
  unfold addnewinstrument, insert_instrument. run.
  destruct (new_instrument _ _ _ _ _ _ _ _ _ _ _ _ _) as [i|] eqn:Hnew;
    cbn; [|by split].
  destruct (instruments w !! fresh req) eqn:Hfresh; cbn; [by split|].
  split; [done|]. intros _.
  unfold new_instrument, required in Hnew.
  repeat match type of Hnew with
         | context [mbind _ (truthy (body req !! ?k))] =>
             let s := fresh "s" in let E := fresh "E" in
             destruct (truthy (body req !! k)) as [s|] eqn:E; cbn in Hnew;
             [apply truthy_Some in E as [E ?]|discriminate]
         | context [mbind _ ?o] => destruct o; cbn in Hnew; [|discriminate]
         end.
  injection Hnew as <-. split.
  - intros f Hf. unfold instrument_fields in Hf.
    repeat (apply elem_of_cons in Hf as [->|Hf]);
      try (by apply elem_of_nil in Hf); eauto.
  - eexists. split; [done|]. split; [done|]. cbn. by rewrite E, E1.
Qed.

Lemma addnewinstrument_stored (req : Request) (w : World) :
  status (addnewinstrument req w).1 = 201%nat →
  ∃ i : Instrument.t,
    (addnewinstrument req w).2 =
      set_instruments (<[fresh req := i]> (instruments w)) w ∧
    instruments w !! fresh req = None.
Proof.
  unfold addnewinstrument, insert_instrument. run.
  destruct (new_instrument _ _ _ _ _ _ _ _ _ _ _ _ _) as [i|];
    cbn; [|discriminate].
  destruct (instruments w !! fresh req) eqn:Hfresh; cbn; [discriminate|].
  intros _. by exists i.
Qed.

(** X21: An instrument that POST /addnewinstrument stored is read back by
    GET /instruments/:id under its identifier and is among those that
    GET /instruments lists; GET /instruments answers 200 with every stored
    instrument, each once. *)
Theorem addnewinstrument_then_read (req greq lreq : Request) (w : World) :
  status (addnewinstrument req w).1 = 201%nat →
  castObjectId (param_id greq) = Some (fresh req) →
  ∃ (i : Instrument.t) (l : list (Doc Instrument.t)),
    get_instrument greq (addnewinstrument req w).2 =
      (mkReply 200 (InstrumentContent (fresh req, i)),
       (addnewinstrument req w).2) ∧
    get_instruments lreq (addnewinstrument req w).2 =
      (mkReply 200 (InstrumentsContent l), (addnewinstrument req w).2) ∧
    (fresh req, i) ∈ l ∧
    NoDup l ∧
    ∀ o j, instruments w !! o = Some j → (o, j) ∈ l.
Proof.
  intros H201 Hid.
  destruct (addnewinstrument_stored req w H201) as (i & -> & Hfree).
  exists i. eexists. split; [|split; [reflexivity|]].
  - unfold get_instrument, try_reply, findById. run. rewrite Hid. cbn.
    by rewrite lookup_insert_eq.
  - cbn [instruments set_instruments]. split.
    + apply elem_of_map_to_list, lookup_insert_eq.
    + split; [apply NoDup_map_to_list|].
      intros o j Hj. apply elem_of_map_to_list.
      rewrite lookup_insert_ne; [done|]. intros <-. congruence.
Qed.
End Listings.

(** ** Events *)

Section MoreEvents.
Context `{L : Libs}.
Variable castNumber : string → option Z.
Variable isValid : string → bool.
Variable user_of_id : list User.t → ObjectId → option User.t.

(** X22: POST /addevent refuses with 400 "Missing required fields" a body in
    which one of the nine fields is absent or empty, and stores nothing. *)
Theorem addevent_requires_fields (bookeduser : option (list string))
    (req : Request) (w : World) (f : string) :
  f ∈ addevent_fields →
  truthy (body req !! f) = None →
  addevent castNumber bookeduser req w =
    (mkReply 400 (Plain (SuccessMessage false "Missing required fields")),
     w).
Proof.
  intros Hf Hnone. unfold addevent_fields in Hf. unfold addevent, try_reply.
  repeat (apply elem_of_cons in Hf as [->|Hf]);
    try (by apply elem_of_nil in Hf);
    rewrite Hnone;
    repeat match goal with
           | |- context [truthy (body req !! ?k)] =>
               destruct (truthy (body req !! k))
           end; reflexivity.
Qed.

(** What POST /addevent has done when it answers 201. *)
Lemma addevent_stored (bookeduser : option (list string)) (req : Request)
    (w : World) :
  reply_status (addevent castNumber bookeduser req w).1 = 201%nat →
  ∃ (e : Event.t) (ids : list ObjectId),
    addevent castNumber bookeduser req w =
      (mkReply 201 (EventContent true (fresh req, e)),
       set_events (<[fresh req := e]> (events w)) w) ∧
    events w !! fresh req = None ∧
    mapM castObjectId (default [] bookeduser) = Some ids ∧
    Event.bookeduser e = Some <$> ids.
Proof.
  unfold addevent, try_reply. run.
  repeat match goal with
         | |- context [truthy (body req !! ?k)] =>
             destruct (truthy (body req !! k)); [|discriminate]
         end.
  match goal with
  | |- context [new_event ?c ?a1 ?a2 ?a3 ?a4 ?a5 ?a6 ?a7 ?a8 ?a9 ?b ?i] =>
      destruct (new_event c a1 a2 a3 a4 a5 a6 a7 a8 a9 b i) as [e|] eqn:Hnew;
      cbn -[new_event]; [|discriminate]
  end.
  destruct (events w !! fresh req) eqn:Hfree; cbn; [discriminate|].
  intros _. unfold new_event in Hnew.
  repeat match type of Hnew with
         | context [mbind _ ?o] =>
             let E := fresh "E" in
             destruct o eqn:E; cbn in Hnew; [|discriminate]
         end.
  injection Hnew as <-. by eexists _, _.
Qed.

(** X23: An event that POST /addevent stored is read back by GET /eventsdata/:id
    under its identifier, GET /eventsdata then answers 200 and lists it,
    and its attendees are those of the request body, cast one by one and
    in the same order, repetitions included. *)
Theorem addevent_then_read (bookeduser : option (list string))
    (req greq lreq : Request) (w : World) :
  reply_status (addevent castNumber bookeduser req w).1 = 201%nat →
  castObjectId (param_id greq) = Some (fresh req) →
  ∃ (e : Event.t) (ids : list ObjectId) (l : list (Doc Event.t)),
    get_event greq (addevent castNumber bookeduser req w).2 =
      (mkReply 200 (EventContent true (fresh req, e)),
       (addevent castNumber bookeduser req w).2) ∧
    eventsdata lreq (addevent castNumber bookeduser req w).2 =
      (mkResponse 200 (EventsBody true l),
       (addevent castNumber bookeduser req w).2) ∧
    (fresh req, e) ∈ l ∧
    mapM castObjectId (default [] bookeduser) = Some ids ∧
    Event.bookeduser e = Some <$> ids.
Proof.
  intros H201 Hid.
  destruct (addevent_stored bookeduser req w H201)
    as (e & ids & -> & Hfree & Hids & Hbk).
  exists e, ids, (map_to_list (<[fresh req := e]> (events w))).
  cbn [snd]. split; [|split; [|split; [|done]]].
  - unfold get_event, try_reply, findById. run. rewrite Hid. cbn.
    by rewrite lookup_insert_eq.
  - unfold eventsdata. run. cbn [events set_events].
    destruct (map_to_list (<[fresh req:=e]> (events w))) as [|d l] eqn:E;
      [|done].
    apply map_to_list_empty_iff in E.
    by apply insert_non_empty in E.
  - apply elem_of_map_to_list, lookup_insert_eq.
Qed.

(** X24: The three handlers that address an event through [:id]: an [:id] that
    does not cast is answered 400 by the booked-users handler when
    [isValid] rejects it, and 500 by the two others; an [:id] that casts
    and addresses no event is answered 404 by all three.  Nothing is
    changed. *)
Theorem event_by_id_errors (req : Request) (w : World) :
  (isValid (param_id req) = false →
     booked_users isValid user_of_id req w =
       (mkReply 400 (Plain (SuccessMessage false "Invalid event ID")), w)) ∧
  (castObjectId (param_id req) = None →
     get_event req w =
       (mkReply 500
          (Plain (SuccessMessage false
                    ("Failed to fetch event: "
                       +:+ error_message (CastError (param_id req))))), w) ∧
     rsvp req w =
       (mkResponse 500
          (SuccessMessage false (error_message (CastError (param_id req)))),
        w)) ∧
  (∀ o, castObjectId (param_id req) = Some o → events w !! o = None →
     get_event req w =
       (mkReply 404 (Plain (SuccessMessage false "Event not found")), w) ∧
     rsvp req w =
       (mkResponse 404 (SuccessMessage false "Event not found"), w) ∧
     (isValid (param_id req) = true →
        booked_users isValid user_of_id req w =
          (mkReply 404 (Plain (SuccessMessage false "Event not found")),
           w))).
Proof.
  unfold booked_users, get_event, rsvp, try_reply, findById. run.
  split; [|split].
  - by intros ->.
  - by intros ->.
  - intros o Ho He. rewrite Ho. cbn. rewrite He.
    repeat split; try done. intros ->. cbn. by rewrite He.
Qed.

(** X25: RSVP and booked users together: after an accepted RSVP of a
    reference that resolves to a stored user, GET /event/:id/booked-users
    answers 200 with the attendees it listed before, followed by the first
    name, last name, email and phone of that user; for an event that had
    no attendee the list is exactly that user. *)
Theorem rsvp_then_booked_users (rreq breq : Request) (w : World)
    (u o : string) (e : Event.t) (user : User.t) :
  body rreq !! "userId" = Some u →
  castObjectId u = Some u →
  castObjectId (param_id rreq) = Some o →
  events w !! o = Some e →
  Some u ∉ Event.bookeduser e →
  isValid (param_id breq) = true →
  castObjectId (param_id breq) = Some o →
  user_of_id (users w) u = Some user →
  let added :=
    mkBookedUser (User.firstName user) (User.lastName user)
      (User.email user) (User.phone user) in
  ∃ before : list BookedUser,
    booked_users isValid user_of_id breq w =
      (mkReply 200 (BookedUsersContent true before), w) ∧
    booked_users isValid user_of_id breq (rsvp rreq w).2 =
      (mkReply 200 (BookedUsersContent true (before ++ [added])),
       (rsvp rreq w).2) ∧
    (Event.bookeduser e = [] → before = []).
Proof.
  intros Hb Hu Ho He Hn Hv Hbo Huser added.
  exists (populate user_of_id (users w) (Event.bookeduser e)).
  assert (∀ w' e',
            events w' !! o = Some e' →
            booked_users isValid user_of_id breq w' =
              (mkReply 200
                 (BookedUsersContent true
                    (populate user_of_id (users w') (Event.bookeduser e'))),
               w')) as Hrun.
  { intros w' e' He'. unfold booked_users, try_reply, findById. run.
    rewrite Hv, Hbo. cbn. by rewrite He'. }
  split; [by apply Hrun|]. split; [|by intros ->].
  rewrite (rsvp_existing rreq w u o e Hb Hu Ho He).
  destruct (includes (Some u) (Event.bookeduser e)) eqn:Hin.
  { apply includes_elem_of in Hin. contradiction. }
  cbv zeta. cbn [snd]. erewrite Hrun by (cbn; apply lookup_insert_eq).
  cbn [users set_events Event.bookeduser Event.set_bookeduser].
  unfold populate. rewrite omap_app. cbn. by rewrite Huser.
Qed.

(** X26: The handlers that only read, among those above, leave the world as it
    is, whatever the request. *)
Theorem reply_readers_change_nothing (h : Request → World → Reply * World)
    (req : Request) (w : World) :
  h ∈ [booked_users isValid user_of_id; get_event; get_posts;
       get_instruments; get_instrument] →
  (h req w).2 = w.
Proof.
  intros Hh.
  repeat (apply elem_of_cons in Hh as [->|Hh]);
    [ unfold booked_users | unfold get_event | unfold get_posts
    | unfold get_instruments | unfold get_instrument
    | by apply elem_of_nil in Hh ];
    unfold try_reply, findById; run; try done.
  - destruct (negb _); [done|].
    destruct (castObjectId _) as [o|]; cbn; [|done].
    by destruct (events w !! o).
  - destruct (castObjectId _) as [o|]; cbn; [|done].
    by destruct (events w !! o).
  - destruct (castObjectId _) as [o|]; cbn; [|done].
    by destruct (instruments w !! o).
Qed.
End MoreEvents.

Lemma addevent_requires_fields_witness :
  addevent (L := Reference.libs) Standin.digits_number None
    (Sample.request None ""
       [("name", "Jam"); ("genre", "Jazz"); ("host", "Alice");
        ("date", "1800000000000"); ("description", "Open jam");
        ("location", "Hall"); ("userId", Sample.alice); ("slots", "");
        ("link", "https://example.org/jam")])
    Sample.world =
    (mkReply 400 (Plain (SuccessMessage false "Missing required fields")),
     Sample.world).
Proof.
  apply (addevent_requires_fields (L := Reference.libs)) with (f := "slots");
    [unfold addevent_fields; set_solver|reflexivity].
Defined.

Lemma addevent_then_read_witness :
  let req :=
    Sample.request None ""
      [("name", "Gig"); ("genre", "Rock"); ("host", "Bob");
       ("date", "1800000000000"); ("description", "Loud");
       ("location", "Bar"); ("userId", Sample.bob); ("slots", "1");
       ("link", "https://example.org/gig")] in
  let greq := Sample.request None (fresh req) [] in
  let w1 :=
    (addevent (L := Reference.libs) Standin.digits_number
       (Some [Sample.alice; Sample.alice]) req Sample.world).2 in
  ∃ (e : Event.t) (ids : list ObjectId) (l : list (Doc Event.t)),
    get_event (L := Reference.libs) greq w1 =
      (mkReply 200 (EventContent true (fresh req, e)), w1) ∧
    eventsdata (L := Reference.libs) greq w1 =
      (mkResponse 200 (EventsBody true l), w1) ∧
    (fresh req, e) ∈ l ∧
    mapM (castObjectId (Libs := Reference.libs))
      (default [] (Some [Sample.alice; Sample.alice])) = Some ids ∧
    Event.bookeduser e = Some <$> ids.
Proof.
  apply (addevent_then_read (L := Reference.libs) Standin.digits_number
           (Some [Sample.alice; Sample.alice])
           (Sample.request None ""
              [("name", "Gig"); ("genre", "Rock"); ("host", "Bob");
               ("date", "1800000000000"); ("description", "Loud");
               ("location", "Bar"); ("userId", Sample.bob); ("slots", "1");
               ("link", "https://example.org/gig")])
           (Sample.request None "ffffffffffffffffffffffff" [])
           (Sample.request None "ffffffffffffffffffffffff" [])
           Sample.world); reflexivity.
Defined.

Lemma rsvp_then_booked_users_witness :
  let carol_id := "dddddddddddddddddddddddd" in
  let rreq := Sample.request None Sample.event1 [("userId", carol_id)] in
  let breq := Sample.request None Sample.event1 [] in
  booked_users (L := Reference.libs) Standin.casts
    (Standin.by_id [carol_id]) breq
    (rsvp (L := Reference.libs) rreq Sample.world).2 =
    (mkReply 200
       (BookedUsersContent true
          [mkBookedUser "Carol" "Cole" "carol@x.com" "1"]),
     (rsvp (L := Reference.libs) rreq Sample.world).2).
Proof.
  destruct (rsvp_then_booked_users (L := Reference.libs) Standin.casts
              (Standin.by_id ["dddddddddddddddddddddddd"])
              (Sample.request None Sample.event1
                 [("userId", "dddddddddddddddddddddddd")])
              (Sample.request None Sample.event1 [])
              Sample.world "dddddddddddddddddddddddd" Sample.event1
              Sample.jam Sample.carol
              eq_refl eq_refl eq_refl eq_refl (not_elem_of_nil _)
              eq_refl eq_refl eq_refl)
    as (before & _ & Hafter & Hempty).
  rewrite (Hempty eq_refl) in Hafter. exact Hafter.
Defined.

Lemma reply_readers_change_nothing_witness :
  (get_instrument (L := Reference.libs)
     (Sample.request None Sample.guitar1 []) Sample.world).2 = Sample.world.
Proof.
  apply (reply_readers_change_nothing (L := Reference.libs) Standin.casts
           (Standin.by_id []) (get_instrument (L := Reference.libs))).
  set_solver.
Defined.

Lemma rsvp_other_text_stored_twice_witness :
  let req :=
    Sample.request None Sample.event1
      [("userId", "BBBBBBBBBBBBBBBBBBBBBBB2")] in
  let rsvp := rsvp (L := Reference.libs) in
  status (rsvp req Sample.world).1 = 200%nat ∧
  status (rsvp req (rsvp req Sample.world).2).1 = 200%nat ∧
  ∃ e2 : Event.t,
    events (rsvp req (rsvp req Sample.world).2).2 !! Sample.event1
      = Some e2 ∧
    Event.bookeduser e2 =
      Event.bookeduser Sample.jam ++ [Some Sample.bob; Some Sample.bob] ∧
    ¬ NoDup (Event.bookeduser e2).
Proof.
  apply (rsvp_other_text_stored_twice (L := Reference.libs)
           (Sample.request None Sample.event1
              [("userId", "BBBBBBBBBBBBBBBBBBBBBBB2")])
           (Sample.request None Sample.event1
              [("userId", "BBBBBBBBBBBBBBBBBBBBBBB2")])
           Sample.world "BBBBBBBBBBBBBBBBBBBBBBB2" Sample.bob Sample.event1
           Sample.jam);
    first [reflexivity | discriminate | apply not_elem_of_nil].
Defined.

Section MoreRsvp.
Context `{L : Libs}.

(** X27: An RSVP that is accepted adds exactly one attendee to that event,
    whatever its number of slots, leaves the rest of the event and every
    other event as they were, and touches no other collection. *)
Theorem rsvp_appends_one (req : Request) (w : World) (u o : string)
    (e : Event.t) :
  body req !! "userId" = Some u →
  castObjectId u = Some u →
  castObjectId (param_id req) = Some o →
  events w !! o = Some e →
  Some u ∉ Event.bookeduser e →
  ∃ e1 : Event.t,
    status (rsvp req w).1 = 200%nat ∧
    events (rsvp req w).2 !! o = Some e1 ∧
    length (Event.bookeduser e1) = S (length (Event.bookeduser e)) ∧
    Event.set_bookeduser (Event.bookeduser e) e1 = e ∧
    (∀ o', o' ≠ o → events (rsvp req w).2 !! o' = events w !! o') ∧
    users (rsvp req w).2 = users w ∧
    posts (rsvp req w).2 = posts w ∧
    instruments (rsvp req w).2 = instruments w ∧
    emitted (rsvp req w).2 = emitted w.
Proof.
  intros Hb Hu Ho He Hn.
  rewrite (rsvp_existing req w u o e Hb Hu Ho He).
  destruct (includes (Some u) (Event.bookeduser e)) eqn:Hin.
  { apply includes_elem_of in Hin. contradiction. }
  eexists. split; [done|]. split; [cbn; apply lookup_insert_eq|].
  split; [cbn; rewrite length_app; cbn; lia|].
  split; [by destruct e|]. split; [|done].
  intros o' Hne. cbn. by apply lookup_insert_ne.
Qed.

(** X28: Two users who are not yet attendees can RSVP in either order: both
    requests are accepted either way, and the attendees are the same up
    to their order. *)
Theorem rsvp_commutes (req1 req2 : Request) (w : World) (u1 u2 o : string)
    (e : Event.t) :
  body req1 !! "userId" = Some u1 →
  body req2 !! "userId" = Some u2 →
  castObjectId u1 = Some u1 →
  castObjectId u2 = Some u2 →
  castObjectId (param_id req1) = Some o →
  castObjectId (param_id req2) = Some o →
  events w !! o = Some e →
  Some u1 ∉ Event.bookeduser e →
  Some u2 ∉ Event.bookeduser e →
  u1 ≠ u2 →
  ∃ ea eb : Event.t,
    status (rsvp req2 (rsvp req1 w).2).1 = 200%nat ∧
    status (rsvp req1 (rsvp req2 w).2).1 = 200%nat ∧
    events (rsvp req2 (rsvp req1 w).2).2 !! o = Some ea ∧
    events (rsvp req1 (rsvp req2 w).2).2 !! o = Some eb ∧
    Event.bookeduser ea = Event.bookeduser e ++ [Some u1; Some u2] ∧
    Event.bookeduser ea ≡ₚ Event.bookeduser eb.
Proof.
  intros Hb1 Hb2 Hu1 Hu2 Ho1 Ho2 He Hn1 Hn2 Hne.
  assert (∀ (req : Request) (u : string) (w' : World) (e' : Event.t),
            body req !! "userId" = Some u → castObjectId u = Some u →
            castObjectId (param_id req) = Some o →
            events w' !! o = Some e' → Some u ∉ Event.bookeduser e' →
            rsvp req w' =
              (mkResponse 200
                 (RsvpBody true "RSVP successful"
                    (o, Event.set_bookeduser
                          (Event.bookeduser e' ++ [Some u]) e')),
               set_events
                 (<[o := Event.set_bookeduser
                           (Event.bookeduser e' ++ [Some u]) e']>
                    (events w')) w')) as Hrun.
  { intros req u w' e' Hb Hu Ho He' Hn.
    rewrite (rsvp_existing req w' u o e' Hb Hu Ho He').
    destruct (includes (Some u) (Event.bookeduser e')) eqn:Hin; [|done].
    apply includes_elem_of in Hin. contradiction. }
  rewrite (Hrun req1 u1 w e Hb1 Hu1 Ho1 He Hn1).
  rewrite (Hrun req2 u2 w e Hb2 Hu2 Ho2 He Hn2). cbn [snd].
  erewrite (Hrun req2 u2); [|done..| |].
  2:{ cbn. apply lookup_insert_eq. }
  2:{ cbn. rewrite elem_of_app, list_elem_of_singleton. intros [?|[=]]; auto. }
  erewrite (Hrun req1 u1); [|done..| |].
  2:{ cbn. apply lookup_insert_eq. }
  2:{ cbn. rewrite elem_of_app, list_elem_of_singleton. intros [?|[=]]; auto. }
  eexists _, _. split; [done|]. split; [done|].
  split; [cbn; apply lookup_insert_eq|].
  split; [cbn; apply lookup_insert_eq|].
  cbn. split; [by rewrite <- app_assoc|].
  rewrite <- !app_assoc. cbn. apply Permutation_app_head, perm_swap.
Qed.
End MoreRsvp.

Lemma rsvp_appends_one_witness :
  ∃ e1 : Event.t,
    let req :=
      Sample.request None Sample.event1 [("userId", Sample.bob)] in
    let r := rsvp (L := Reference.libs) req Sample.world in
    status r.1 = 200%nat ∧
    events r.2 !! Sample.event1 = Some e1 ∧
    length (Event.bookeduser e1) = S (length (Event.bookeduser Sample.jam)) ∧
    Event.set_bookeduser (Event.bookeduser Sample.jam) e1 = Sample.jam ∧
    (∀ o', o' ≠ Sample.event1 →
           events r.2 !! o' = events Sample.world !! o') ∧
    users r.2 = users Sample.world ∧
    posts r.2 = posts Sample.world ∧
    instruments r.2 = instruments Sample.world ∧
    emitted r.2 = emitted Sample.world.
Proof.
  apply (rsvp_appends_one (L := Reference.libs)
           (Sample.request None Sample.event1 [("userId", Sample.bob)])
           Sample.world Sample.bob Sample.event1 Sample.jam);
    first [reflexivity | apply not_elem_of_nil].
Defined.

Lemma rsvp_commutes_witness :
  let req1 := Sample.request None Sample.event1 [("userId", Sample.alice)] in
  let req2 := Sample.request None Sample.event1 [("userId", Sample.bob)] in
  let rsvp := rsvp (L := Reference.libs) in
  ∃ ea eb : Event.t,
    status (rsvp req2 (rsvp req1 Sample.world).2).1 = 200%nat ∧
    status (rsvp req1 (rsvp req2 Sample.world).2).1 = 200%nat ∧
    events (rsvp req2 (rsvp req1 Sample.world).2).2 !! Sample.event1
      = Some ea ∧
    events (rsvp req1 (rsvp req2 Sample.world).2).2 !! Sample.event1
      = Some eb ∧
    Event.bookeduser ea =
      Event.bookeduser Sample.jam ++ [Some Sample.alice; Some Sample.bob] ∧
    Event.bookeduser ea ≡ₚ Event.bookeduser eb.
Proof.
  apply (rsvp_commutes (L := Reference.libs)
           (Sample.request None Sample.event1 [("userId", Sample.alice)])
           (Sample.request None Sample.event1 [("userId", Sample.bob)])
           Sample.world Sample.alice Sample.bob Sample.event1 Sample.jam);
    first [reflexivity | apply not_elem_of_nil | discriminate].
Defined.

Lemma register_description_only_for_artist_witness :
  Forall description_only_for_artist
    (users (register (L := Reference.libs)
              (Sample.request None ""
                 [("role", "Musician"); ("firstName", "Dan");
                  ("lastName", "Dow"); ("email", "dan@x.com");
                  ("password", "pw"); ("phone", "1"); ("address", "2");
                  ("country", "3"); ("state", "4");
                  ("description", "I play bass")])
              Sample.world).2).
Proof.
  apply (register_description_only_for_artist (L := Reference.libs)).
  apply Forall_singleton. intros H. by destruct H.
Defined.

Lemma addnewinstrument_then_read_witness :
  let req :=
    Sample.request None ""
      [("instrumentName", "Drum"); ("category", "Percussion");
       ("userId", Sample.alice); ("userName", "Alice Ames")] in
  let greq := Sample.request None (fresh req) [] in
  let w1 := (addnewinstrument (L := Reference.libs) req Sample.world).2 in
  ∃ (i : Instrument.t) (l : list (Doc Instrument.t)),
    get_instrument (L := Reference.libs) greq w1 =
      (mkReply 200 (InstrumentContent (fresh req, i)), w1) ∧
    get_instruments greq w1 = (mkReply 200 (InstrumentsContent l), w1) ∧
    (fresh req, i) ∈ l ∧
    NoDup l ∧
    ∀ o j, instruments Sample.world !! o = Some j → (o, j) ∈ l.
Proof.
  apply (addnewinstrument_then_read (L := Reference.libs)
           (Sample.request None ""
              [("instrumentName", "Drum"); ("category", "Percussion");
               ("userId", Sample.alice); ("userName", "Alice Ames")])
           (Sample.request None "ffffffffffffffffffffffff" [])
           (Sample.request None "ffffffffffffffffffffffff" [])
           Sample.world); reflexivity.
Defined.

Section Posting.
Context `{L : Libs}.

(** X29: POST /posts takes its token from the body, not from the Authorization
    header: it stores a post only when the body has a non-empty token and
    a non-empty message and the token verifies to a stored user, who
    becomes the author; whenever it does not answer 201 nothing has
    changed. *)
Theorem create_post_accepted_only (req : Request) (w : World) :
  (status (create_post req w).1 ≠ 201%nat → (create_post req w).2 = w) ∧
  (status (create_post req w).1 = 201%nat →
   ∃ (token message u o : string) (user : User.t) (p : Post.t),
     truthy (body req !! "token") = Some token ∧
     truthy (body req !! "message") = Some message ∧
     jwt_verify (now req) SECRET_KEY token = Some u ∧
     castObjectId u = Some o ∧
     List.find (fun v => bool_decide (User.userId v = o)) (users w)
       = Some user ∧
     Post.userId p = User.userId user ∧
     Post.message p = message ∧
     Post.likedUsers p = [] ∧
     (create_post req w).2 =
       emit (newPost_event (fresh req, p))
         (set_posts (<[fresh req := p]> (posts w)) w)).
Proof.
  unfold create_post, findOne_userId.
  destruct (truthy (body req !! "token")) as [token|] eqn:Ht; [|by split].
  destruct (truthy (body req !! "message")) as [message|] eqn:Hm;
    [|by split].
  run.
  destruct (jwt_verify _ _ _) as [u|] eqn:Hv; cbn -[new_post]; [|by split].
  destruct (castObjectId u) as [o|] eqn:Ho; cbn -[new_post]; [|by split].
  destruct (List.find _ _) as [user|] eqn:Hf; cbn -[new_post]; [|by split].
  unfold new_post, required.
  rewrite truthy_append_space, (truthy_idem _ _ Hm). cbn.
  split; [done|]. intros _.
  eexists token, message, u, o, user, _. repeat split; done.
Qed.
End Posting.

(** ** The 401 answer *)

Section NoToken.
Context `{L : Libs}.

(** X2: each of the six token-guarded handlers answers 401 exactly when the
    request has no Authorization header, or the header has no second
    piece after a space, or that piece is empty; with any other header
    the answer is never 401, whether the token verifies or not. *)
Theorem guarded_401_iff_no_token (h : Request → World → Response * World)
    (req : Request) (w : World) :
  h ∈ token_guarded →
  status (h req w).1 = 401%nat ↔
  authorization req = None ∨
  ∃ a, authorization req = Some a ∧
       (split " " a !! 1%nat = None ∨ split " " a !! 1%nat = Some "").
Proof.
  intros Hh. rewrite <- truthy_bearer_token_None.
  unfold token_guarded in Hh.
  repeat (apply elem_of_cons in Hh as [->|Hh]);
    [ unfold get_user, findOne_userId
    | unfold update_user, findOneAndUpdate
    | unfold like | unfold delete_post | unfold rent, save_rental
    | unfold return_instrument, save_rental
    | by apply elem_of_nil in Hh ];
    unfold findById; run;
    (destruct (truthy (bearer_token req)) as [token|]; [|done]);
    (split; [|discriminate]); intros H; exfalso; revert H;
    repeat first
      [ discriminate
      | progress cbn [fst snd negb status default]
      | match goal with
        | |- context [jwt_verify ?a ?b ?c] => destruct (jwt_verify a b c)
        | |- context [castObjectId ?a] => destruct (castObjectId a)
        | |- context [List.find ?f ?l] => destruct (List.find f l)
        | |- context [split_first ?f ?l] =>
            destruct (split_first f l) as [[[? ?] ?]|]
        | |- context [existsb ?f ?l] => destruct (existsb f l)
        | |- context [cast_date ?v] => destruct (cast_date v)
        | |- context [posts ?w !! ?k] => destruct (posts w !! k)
        | |- context [instruments ?w !! ?k] => destruct (instruments w !! k)
        | |- context [bool_decide ?P] => destruct (bool_decide P)
        end ].
Qed.
End NoToken.

Lemma guarded_401_iff_no_token_witness :
  status (delete_post (L := Reference.libs)
            (Sample.request (Some "Bearer") Sample.post1 [])
            Sample.world).1 = 401%nat.
Proof.
  apply (guarded_401_iff_no_token (L := Reference.libs)
           (delete_post (L := Reference.libs))).
  - unfold token_guarded. set_solver.
  - right. exists "Bearer". split; [reflexivity|]. left. reflexivity.
Defined.
